(** * GrokSearch: the tool surface, the configuration resolver, the result
    formatter and the provider integration layer, embedded in Rocq.

    Python values are modelled as follows.
    - [str] is [string]; a string is its UTF-8 byte sequence, and a slice
      counts characters: the bytes that begin one.
    - [int] is [Z]; counters that only count up from one are [nat].
    - A [dict] keyed by strings is a [gmap string _] where only lookups
      matter, and an association list inside JSON values (the first
      binding of a key is the one a lookup sees).
    - An exception is a value of [exn]; a computation that may raise
      returns a [result].
    - A [float] is the rational it stands for; what the machine's
      arithmetic makes of two of them is a parameter ([FloatArith]).
    - The network, the MCP context and the log sinks are fields of a
      [World] threaded through every effectful call; the clock readings
      are arguments. *)

From stdpp Require Import base strings list gmap.
From Stdlib Require Import ZArith QArith Qround DecimalString Ascii Lia.

Close Scope Q_scope.
Open Scope string_scope.
Open Scope list_scope.

(** ** Strings *)

Module Str.

Definition nl : string := String "010"%char EmptyString.
Definition dquote : string := String "034"%char EmptyString.
Definition backslash : string := String "092"%char EmptyString.

(** Python truthiness of a [str]: only the empty string is falsy. *)
Definition truthy (s : string) : bool :=
  match s with EmptyString => false | String _ _ => true end.

(** Truthiness of an [Optional[str]]: [None] is falsy as well. *)
Definition truthy_opt (o : option string) : bool :=
  match o with Some s => truthy s | None => false end.

(** [sep.join(parts)]. *)
Definition join (sep : string) (parts : list string) : string :=
  String.concat sep parts.

(** [str(i)] for a counter and for an [int]. *)
Definition of_nat (n : nat) : string := NilEmpty.string_of_uint (Nat.to_uint n).
Definition of_Z (z : Z) : string := NilZero.string_of_int (Z.to_int z).

(** [s.startswith(p)]. *)
Definition startswith (p s : string) : bool := String.prefix p s.

(** [s.rstrip(c)] for a single character [c]. *)
Fixpoint rstrip (c : ascii) (s : string) : string :=
  match s with
  | EmptyString => EmptyString
  | String a rest =>
      match rstrip c rest with
      | EmptyString => if Ascii.eqb a c then EmptyString else String a EmptyString
      | String b r => String a (String b r)
      end
  end.

(** A byte that continues a character begun before it (UTF-8: 10xxxxxx). *)
Definition is_continuation (c : ascii) : bool :=
  let b := nat_of_ascii c in (128 <=? b)%nat && (b <? 192)%nat.

(** [len(s)]: the number of characters, the bytes that begin one. *)
Fixpoint chars (s : string) : nat :=
  match s with
  | EmptyString => 0%nat
  | String c rest => if is_continuation c then chars rest else S (chars rest)
  end.

(** [s[:n]]: the first [n] characters of a well-formed text, each with
    the bytes that continue it. *)
Fixpoint take (n : nat) (s : string) : string :=
  match s with
  | EmptyString => EmptyString
  | String c rest =>
      if is_continuation c then String c (take n rest)
      else match n with
           | O => EmptyString
           | S n' => String c (take n' rest)
           end
  end.

(** [c in s] for a character [c]. *)
Fixpoint mem (c : ascii) (s : string) : bool :=
  match s with
  | EmptyString => false
  | String a rest => Ascii.eqb a c || mem c rest
  end.

End Str.

(** ** Exceptions and results *)

Inductive exn : Type :=
| ValueError (msg : string)
| FileNotFoundError (msg : string)
| TOMLDecodeError (msg : string)
| AttributeError (msg : string)
| OSError (msg : string)
| TypeError (msg : string)
| TimeoutException (msg : string)
| RequestError (msg : string).

(** [str(e)]. *)
Definition exn_message (e : exn) : string :=
  match e with
  | ValueError m | FileNotFoundError m | TOMLDecodeError m | AttributeError m
  | OSError m | TypeError m | TimeoutException m | RequestError m => m
  end.

Inductive result (A : Type) : Type :=
| Return (a : A)
| Raise (e : exn).
Arguments Return {A} a.
Arguments Raise {A} e.

#[global] Instance result_ret : MRet result := fun A a => Return a.
#[global] Instance result_bind : MBind result := fun A B k r =>
  match r with Return a => k a | Raise e => Raise e end.

(** The call returned normally. *)
Definition returns {A} (r : result A) : Prop := exists a, r = Return a.

(** ** JSON values, as [json.loads] yields them and [json.dumps] takes them *)

#[warnings="-register-all"]
Inductive json : Type :=
| JNull
| JBool (b : bool)
| JInt (z : Z)
| JFloat (q : Q)
| JString (s : string)
| JArray (items : list json)
| JObject (members : list (string * json)).

Module Json.

(** [d.get(key)] on a decoded object. *)
Fixpoint obj_get (key : string) (members : list (string * json)) : option json :=
  match members with
  | [] => None
  | (k, v) :: rest => if String.eqb k key then Some v else obj_get key rest
  end.

(** [v.get(key)] when [v] is a dict, nothing otherwise. *)
Definition field (key : string) (v : json) : option json :=
  match v with JObject members => obj_get key members | _ => None end.

(** The value under [key] when it is a string. *)
Definition str_field (key : string) (v : json) : option string :=
  match field key v with Some (JString s) => Some s | _ => None end.

Definition as_string (v : json) : option string :=
  match v with JString s => Some s | _ => None end.

Definition as_array (v : json) : option (list json) :=
  match v with JArray l => Some l | _ => None end.

(** [d[key] = v]: the binding is replaced where it stands, or added last. *)
Fixpoint obj_set (key : string) (v : json) (members : list (string * json))
  : list (string * json) :=
  match members with
  | [] => [(key, v)]
  | (k, old) :: rest =>
      if String.eqb k key then (k, v) :: rest else (k, old) :: obj_set key v rest
  end.

End Json.

(** The JSON library the program calls: [json.loads] (and [response.json()]),
    where [None] stands for a decode error, whose message is
    [decode_error] of the text, and [json.dumps]. The program's properties
    are stated for every codec. *)
Class JsonCodec : Type := {
  loads : string -> option json;
  decode_error : string -> string;
  dumps : json -> string
}.

(** ** A reference codec, to run the model on concrete texts

    It reads and writes the JSON subset the examples need: literals,
    integers, strings with the short escapes, arrays and objects. *)

Module RefCodec.

Definition is_ws (c : ascii) : bool :=
  Ascii.eqb c " " || Ascii.eqb c "009" || Ascii.eqb c "010" || Ascii.eqb c "013".

Fixpoint skip_ws (s : string) : string :=
  match s with
  | String c rest => if is_ws c then skip_ws rest else s
  | EmptyString => s
  end.

Definition unescape (c : ascii) : option ascii :=
  if Ascii.eqb c "034" then Some "034"%char
  else if Ascii.eqb c "092" then Some "092"%char
  else if Ascii.eqb c "/" then Some "/"%char
  else if Ascii.eqb c "n" then Some "010"%char
  else if Ascii.eqb c "t" then Some "009"%char
  else if Ascii.eqb c "r" then Some "013"%char
  else None.

(** The rest of a string literal, after its opening quote. *)
Fixpoint read_string (s : string) : option (string * string) :=
  match s with
  | EmptyString => None
  | String c rest =>
      if Ascii.eqb c "034" then Some (EmptyString, rest)
      else if Ascii.eqb c "092" then
        match rest with
        | String e rest' =>
            match unescape e, read_string rest' with
            | Some d, Some (v, r) => Some (String d v, r)
            | _, _ => None
            end
        | EmptyString => None
        end
      else
        match read_string rest with
        | Some (v, r) => Some (String c v, r)
        | None => None
        end
  end.

Definition digit (c : ascii) : option Z :=
  let n := Z.of_nat (nat_of_ascii c) in
  if (48 <=? n)%Z && (n <=? 57)%Z then Some (n - 48)%Z else None.

Fixpoint read_digits (acc : Z) (s : string) : Z * string :=
  match s with
  | String c rest =>
      match digit c with
      | Some d => read_digits (10 * acc + d)%Z rest
      | None => (acc, s)
      end
  | EmptyString => (acc, s)
  end.

Definition read_number (s : string) : option (json * string) :=
  match s with
  | String c rest =>
      if Ascii.eqb c "-" then
        match rest with
        | String d _ =>
            match digit d with
            | Some _ => let '(n, r) := read_digits 0 rest in Some (JInt (- n), r)
            | None => None
            end
        | EmptyString => None
        end
      else
        match digit c with
        | Some _ => let '(n, r) := read_digits 0 s in Some (JInt n, r)
        | None => None
        end
  | EmptyString => None
  end.

(** [s] without the prefix [p], when it has it. *)
Fixpoint after (p s : string) : option string :=
  match p, s with
  | EmptyString, _ => Some s
  | String a p', String b s' => if Ascii.eqb a b then after p' s' else None
  | String _ _, EmptyString => None
  end.

Definition read_literal (s : string) : option (json * string) :=
  match after "null" s, after "true" s, after "false" s with
  | Some r, _, _ => Some (JNull, r)
  | _, Some r, _ => Some (JBool true, r)
  | _, _, Some r => Some (JBool false, r)
  | _, _, _ => read_number s
  end.

(** A dict from its members as written: a repeated key keeps its first
    place and its last value. *)
Definition dict_of (members : list (string * json)) : list (string * json) :=
  foldl (fun acc kv => Json.obj_set (fst kv) (snd kv) acc) [] members.

Fixpoint parse_value (fuel : nat) (s : string) : option (json * string) :=
  match fuel with
  | O => None
  | S fuel' =>
      match skip_ws s with
      | EmptyString => None
      | String c rest =>
          if Ascii.eqb c "[" then
            match skip_ws rest with
            | String d r =>
                if Ascii.eqb d "]" then Some (JArray [], r)
                else
                  match parse_items fuel' rest with
                  | Some (vs, r') => Some (JArray vs, r')
                  | None => None
                  end
            | EmptyString => None
            end
          else if Ascii.eqb c "{" then
            match skip_ws rest with
            | String d r =>
                if Ascii.eqb d "}" then Some (JObject [], r)
                else
                  match parse_members fuel' rest with
                  | Some (kvs, r') => Some (JObject (dict_of kvs), r')
                  | None => None
                  end
            | EmptyString => None
            end
          else if Ascii.eqb c "034" then
            match read_string rest with
            | Some (v, r) => Some (JString v, r)
            | None => None
            end
          else read_literal (String c rest)
      end
  end
with parse_items (fuel : nat) (s : string) : option (list json * string) :=
  match fuel with
  | O => None
  | S fuel' =>
      match parse_value fuel' s with
      | Some (v, r) =>
          match skip_ws r with
          | String d r' =>
              if Ascii.eqb d "," then
                match parse_items fuel' r' with
                | Some (vs, r'') => Some (v :: vs, r'')
                | None => None
                end
              else if Ascii.eqb d "]" then Some ([v], r')
              else None
          | EmptyString => None
          end
      | None => None
      end
  end
with parse_members (fuel : nat) (s : string)
  : option (list (string * json) * string) :=
  match fuel with
  | O => None
  | S fuel' =>
      match skip_ws s with
      | String q r0 =>
          if Ascii.eqb q "034" then
            match read_string r0 with
            | Some (k, r1) =>
                match skip_ws r1 with
                | String col r2 =>
                    if Ascii.eqb col ":" then
                      match parse_value fuel' r2 with
                      | Some (v, r3) =>
                          match skip_ws r3 with
                          | String d r4 =>
                              if Ascii.eqb d "," then
                                match parse_members fuel' r4 with
                                | Some (kvs, r5) => Some ((k, v) :: kvs, r5)
                                | None => None
                                end
                              else if Ascii.eqb d "}" then Some ([(k, v)], r4)
                              else None
                          | EmptyString => None
                          end
                      | None => None
                      end
                    else None
                | EmptyString => None
                end
            | None => None
            end
          else None
      | EmptyString => None
      end
  end.

(** A whole text is one value, with blanks around it at most. *)
Definition json_loads (s : string) : option json :=
  match parse_value (2 * String.length s + 2) s with
  | Some (v, rest) =>
      match skip_ws rest with EmptyString => Some v | String _ _ => None end
  | None => None
  end.

Fixpoint escape (s : string) : string :=
  match s with
  | EmptyString => EmptyString
  | String c rest =>
      (if Ascii.eqb c "034" then Str.backslash +:+ Str.dquote
       else if Ascii.eqb c "092" then Str.backslash +:+ Str.backslash
       else if Ascii.eqb c "010" then Str.backslash +:+ "n"
       else if Ascii.eqb c "009" then Str.backslash +:+ "t"
       else if Ascii.eqb c "013" then Str.backslash +:+ "r"
       else String c EmptyString) +:+ escape rest
  end.

Definition quoted (s : string) : string := Str.dquote +:+ escape s +:+ Str.dquote.

(** A number with two decimals, rounded to the nearest hundredth. *)
Definition two_decimals (q : Q) : string :=
  let h := Qfloor (q * 100 + (1 # 2)) in
  let a := Z.abs h in
  let frac := (a mod 100)%Z in
  (if (h <? 0)%Z then "-" else EmptyString)
  +:+ Str.of_Z (a / 100) +:+ "."
  +:+ (if (frac <? 10)%Z then "0" else EmptyString) +:+ Str.of_Z frac.

Fixpoint json_dumps (v : json) : string :=
  match v with
  | JNull => "null"
  | JBool true => "true"
  | JBool false => "false"
  | JInt z => Str.of_Z z
  | JFloat q => two_decimals q
  | JString s => quoted s
  | JArray items => "[" +:+ Str.join ", " (map json_dumps items) +:+ "]"
  | JObject members =>
      "{" +:+ Str.join ", "
               (map (fun kv => quoted (fst kv) +:+ ": " +:+ json_dumps (snd kv))
                    members) +:+ "}"
  end.

Definition codec : JsonCodec :=
  {| loads := json_loads;
     decode_error := fun _ => "Expecting value";
     dumps := json_dumps |}.

End RefCodec.

(** ** The configuration resolver ([search_mcp/config.py]) *)

(** A parsed [config.toml] whose settings have the types the accessors'
    annotations declare ([grok.api_url], [grok.api_key], [logging.level],
    [logging.dir] are [str]; [debug.enabled] is [bool]): for each table,
    its string-valued keys and its boolean-valued keys. [tomllib] itself
    yields any value under any key; the accessors on such a dict are
    those of [RawConfig] below, of which this is the typed view. *)
Record ConfigData : Type := {
  strings : gmap string (gmap string string);
  bools : gmap string (gmap string bool)
}.

(** What [open] and [tomllib.load] make of an existing file: the
    exception one of them raises, or the parsed document. *)
Inductive TomlFile : Type :=
| Unreadable (e : exn)
| Document (d : ConfigData).

(** The files the process touches while it starts. *)
Record FileSystem : Type := {
  config_path : string;
  config_toml : option TomlFile;   (* [None]: [config_path.exists()] is false *)
  can_mkdir : string -> bool;      (* [LOG_DIR.mkdir(exist_ok=True)] succeeds *)
  can_open_log : string -> bool;   (* [logging.FileHandler(LOG_FILE)] succeeds *)
  mkdir_error : string -> exn;     (* what [mkdir] raises when it fails *)
  open_log_error : string -> exn   (* what [FileHandler] raises when it fails *)
}.

Record Config : Type := { _config_data : ConfigData }.

Module ConfigResolver.

(** [self._config_data.get(table, {}).get(key)] for a string setting. *)
Definition get_str (c : Config) (table key : string) : option string :=
  default ∅ (strings (_config_data c) !! table) !! key.

Definition get_bool (c : Config) (table key : string) : option bool :=
  default ∅ (bools (_config_data c) !! table) !! key.

(** A setting is unset when it is absent or empty. *)
Definition unset (setting : option string) : Prop :=
  setting = None \/ setting = Some EmptyString.

Definition _load_config (fs : FileSystem) : result Config :=
  match config_toml fs with
  | None =>
      Raise (FileNotFoundError ("Configuration file not found: " +:+ config_path fs))
  | Some (Unreadable e) => Raise e
  | Some (Document d) => Return {| _config_data := d |}
  end.

(** [Config()], the first time: [__new__] loads the file. *)
Definition Config_new (fs : FileSystem) : result Config := _load_config fs.

Definition debug_enabled (c : Config) : bool :=
  default false (get_bool c "debug" "enabled").

Definition grok_api_url (c : Config) : result string :=
  let url := get_str c "grok" "api_url" in
  if negb (Str.truthy_opt url) then Raise (ValueError "grok.api_url not configured")
  else Return (default EmptyString url).

Definition grok_api_key (c : Config) : result string :=
  let key := get_str c "grok" "api_key" in
  if negb (Str.truthy_opt key) then Raise (ValueError "grok.api_key not configured")
  else Return (default EmptyString key).

Definition log_level (c : Config) : string :=
  default "INFO" (get_str c "logging" "level").

Definition log_dir (c : Config) : string :=
  default "logs" (get_str c "logging" "dir").


End ConfigResolver.

(** *** The accessors on the dict as [tomllib] yields it

    [tomllib.load] returns a dict of any TOML values, so a table may be
    anything and a setting may have any type. The accessors of
    [RawConfig] are those of [config.py] on such a dict; [Config] above
    is its view when the settings have the types the annotations
    declare ([typed_view]). *)

#[warnings="-register-all"]
Inductive toml : Type :=
| TString (s : string)
| TInteger (z : Z)
| TFloat (q : Q)                         (* a finite float *)
| TSpecialFloat (name : string)          (* inf, -inf or nan *)
| TBoolean (b : bool)
| TDatetime (kind text : string)         (* a date, a time or a date-time *)
| TArray (items : list toml)
| TTable (members : list (string * toml)).

Module RawConfig.

(** [d.get(key)] on a dict. *)
Fixpoint lookup (key : string) (members : list (string * toml)) : option toml :=
  match members with
  | [] => None
  | (k, v) :: rest => if String.eqb k key then Some v else lookup key rest
  end.

(** Python truthiness of a TOML value. *)
Definition truthy (v : toml) : bool :=
  match v with
  | TString s => Str.truthy s
  | TInteger z => negb (z =? 0)%Z
  | TFloat q => negb (Qeq_bool q 0)
  | TSpecialFloat _ => true
  | TBoolean b => b
  | TDatetime _ _ => true
  | TArray items => match items with [] => false | _ :: _ => true end
  | TTable members => match members with [] => false | _ :: _ => true end
  end.

Definition type_name (v : toml) : string :=
  match v with
  | TString _ => "str"
  | TInteger _ => "int"
  | TFloat _ | TSpecialFloat _ => "float"
  | TBoolean _ => "bool"
  | TDatetime kind _ => kind
  | TArray _ => "list"
  | TTable _ => "dict"
  end.

(** [v.get(key)]: a lookup on a dict, an [AttributeError] on anything
    else. *)
Definition get_of (v : toml) (key : string) : result (option toml) :=
  match v with
  | TTable members => Return (lookup key members)
  | other =>
      Raise (AttributeError ("'" +:+ type_name other +:+ "' object has no attribute 'get'"))
  end.

(** [self._config_data.get(table, {}).get(key)]. *)
Definition setting (data : list (string * toml)) (table key : string)
  : result (option toml) :=
  get_of (default (TTable []) (lookup table data)) key.

Definition grok_api_url (data : list (string * toml)) : result toml :=
  url ← setting data "grok" "api_url";
  match url with
  | Some v => if negb (truthy v) then Raise (ValueError "grok.api_url not configured")
              else Return v
  | None => Raise (ValueError "grok.api_url not configured")
  end.

Definition grok_api_key (data : list (string * toml)) : result toml :=
  key ← setting data "grok" "api_key";
  match key with
  | Some v => if negb (truthy v) then Raise (ValueError "grok.api_key not configured")
              else Return v
  | None => Raise (ValueError "grok.api_key not configured")
  end.

Definition debug_enabled (data : list (string * toml)) : result toml :=
  v ← setting data "debug" "enabled"; mret (default (TBoolean false) v).

Definition log_level (data : list (string * toml)) : result toml :=
  v ← setting data "logging" "level"; mret (default (TString "INFO") v).

Definition log_dir (data : list (string * toml)) : result toml :=
  v ← setting data "logging" "dir"; mret (default (TString "logs") v).

(** [c] is the dict [data] with its settings typed: the four string
    settings are absent or strings, the debug flag is absent or a
    boolean, and [c] holds them. *)
Definition typed_view (data : list (string * toml)) (c : Config) : Prop :=
  (forall table key,
     (table, key) ∈ [("grok", "api_url"); ("grok", "api_key");
                     ("logging", "level"); ("logging", "dir")] ->
     setting data table key = Return (TString <$> ConfigResolver.get_str c table key))
  /\ setting data "debug" "enabled"
     = Return (TBoolean <$> ConfigResolver.get_bool c "debug" "enabled").

End RawConfig.

(** Modelled from the spec: the model selection of the absent
    [grok_search/config.py] ([grok_model], [set_model], [config_file]).
    Section 4.2 gives two rules. The environment overrides the persisted
    per-user file, which overrides the built-in default; and [set_model]
    persists its argument and takes effect on the next resolution. Both
    hold when the model switched to in this process comes first. *)
Record ModelStore : Type := {
  switched_model : option string;  (* the model [set_model] was last given *)
  env_model : option string;       (* the environment's model id, when set *)
  saved_model : option string;     (* the model id in the persisted file *)
  default_model : string;          (* the built-in default *)
  config_file : string;            (* the path of the persisted file *)
  save_failure : option exn
    (* what rewriting the persisted file raises, when it fails *)
}.

Module ModelSelection.

(** Modelled from the spec: [config.grok_model], a fresh resolution. *)
Definition grok_model (m : ModelStore) : string :=
  match switched_model m with
  | Some id => id
  | None =>
      match env_model m with
      | Some id => id
      | None => default (default_model m) (saved_model m)
      end
  end.

(** Modelled from the spec: [config.set_model(model)]; the rewrite is
    atomic, so a failed one leaves the store as it was. *)
Definition set_model (model : string) (m : ModelStore) : result unit * ModelStore :=
  match save_failure m with
  | None =>
      (Return (),
       {| switched_model := Some model;
          env_model := env_model m; saved_model := Some model;
          default_model := default_model m; config_file := config_file m;
          save_failure := None |})
  | Some e => (Raise e, m)
  end.

End ModelSelection.

(** ** The logger ([search_mcp/logger.py]) and the world of effects *)

Record HttpResponse : Type := { status_code : Z; text : string }.

Record Request : Type := {
  r_method : string;
  r_url : string;
  r_headers : list (string * string);
  r_json : option json
}.

(** What reaches the MCP context of a call, when it has one. *)
Inductive CtxEvent : Type :=
| CtxInfo (message : string)
| CtxProgress (message : string).

Record World : Type := {
  requests : list Request;
    (* every HTTP request issued so far, oldest first *)
  upstream : list Request -> Request -> result HttpResponse;
    (* what the network does with a request, given the ones before it:
       a response, or the exception the HTTP client raises *)
  ctx_events : list CtxEvent;
    (* the calls made on the MCP context, oldest first *)
  progress_reply : string -> result unit;
    (* what [await ctx.report_progress(text)] does with a text where the
       context takes a number: it returns, or raises while it builds the
       notification *)
  log_lines : list string
}.

Module Effects.

(** Issue one HTTP request: it is recorded, and the network answers. *)
Definition send (req : Request) (w : World) : result HttpResponse * World :=
  (upstream w (requests w) req,
   {| requests := requests w ++ [req]; upstream := upstream w;
      ctx_events := ctx_events w; progress_reply := progress_reply w;
      log_lines := log_lines w |}).

Definition ctx_emit (ev : CtxEvent) (w : World) : World :=
  {| requests := requests w; upstream := upstream w;
     ctx_events := ctx_events w ++ [ev]; progress_reply := progress_reply w;
     log_lines := log_lines w |}.

Definition logger_info (message : string) (w : World) : World :=
  {| requests := requests w; upstream := upstream w;
     ctx_events := ctx_events w; progress_reply := progress_reply w;
     log_lines := log_lines w ++ [message] |}.

(** [await ctx.report_progress(text)]: the call is made, and the context
    returns or raises. *)
Definition report_progress (text : string) (w : World) : result unit * World :=
  (progress_reply w text, ctx_emit (CtxProgress text) w).

End Effects.

(** An attribute of the [logging] module, as [setLevel] sees it: an
    integer (a [bool] is one), which it takes as the level, or a value it
    rejects with an exception. *)
Inductive Attribute : Type :=
| Level (z : Z)
| Unfit (e : exn).

(** The attributes of the [logging] module other than its eight level
    constants: its flags, functions, classes and submodules, which vary
    with the version of the library. [None]: the module has no attribute
    of that name. *)
Class LoggingModule : Type := {
  attribute : string -> option Attribute
}.

Module Logger.

(** The level constants of the [logging] module. *)
Definition level_constant (name : string) : option Z :=
  if String.eqb name "CRITICAL" then Some 50%Z
  else if String.eqb name "FATAL" then Some 50%Z
  else if String.eqb name "ERROR" then Some 40%Z
  else if String.eqb name "WARNING" then Some 30%Z
  else if String.eqb name "WARN" then Some 30%Z
  else if String.eqb name "INFO" then Some 20%Z
  else if String.eqb name "DEBUG" then Some 10%Z
  else if String.eqb name "NOTSET" then Some 0%Z
  else None.

Section WithLogging.
Context `{!LoggingModule}.

(** [getattr(logging, name)]: a level constant, another attribute of the
    module, or the [AttributeError] of a name the module does not have;
    the empty name is none it has. *)
Definition logging_getattr (name : string) : result Attribute :=
  match level_constant name with
  | Some z => Return (Level z)
  | None =>
      match (if Str.truthy name then attribute name else None) with
      | Some a => Return a
      | None =>
          Raise (AttributeError ("module 'logging' has no attribute '" +:+ name +:+ "'"))
      end
  end.

(** [setLevel(value)]: the level set, or the exception of a value that
    is no level. *)
Definition setLevel (value : Attribute) : result Z :=
  match value with
  | Level z => Return z
  | Unfit e => Raise e
  end.

(** The module body, run once when the logger is imported: it yields the
    level the logger and its file handler are set to. *)
Definition logger_setup (c : Config) (fs : FileSystem) : result Z :=
  let LOG_DIR := ConfigResolver.log_dir c in
  if negb (can_mkdir fs LOG_DIR) then Raise (mkdir_error fs LOG_DIR)
  else
    level ← logging_getattr (ConfigResolver.log_level c) ≫= setLevel;
    if negb (can_open_log fs LOG_DIR) then Raise (open_log_error fs LOG_DIR)
    else
      _ ← logging_getattr (ConfigResolver.log_level c) ≫= setLevel;
      mret level.

End WithLogging.

(** [await log_info(ctx, message, is_debug)]; [ctx] tells whether the
    call has a context. *)
Definition log_info (ctx : bool) (message : string) (is_debug : bool) (w : World)
  : World :=
  let w := if is_debug then Effects.logger_info message w else w in
  if ctx then Effects.ctx_emit (CtxInfo message) w else w.

End Logger.

(** Process start: the imports construct the [Config] singleton, then run
    the logger module. *)
Definition startup `{!LoggingModule} (fs : FileSystem) : result Config :=
  c ← ConfigResolver.Config_new fs;
  _ ← Logger.logger_setup c fs;
  mret c.

(** ** Search results and the result formatter ([grok_search/utils.py]) *)

(** Modelled from the spec: the [SearchResult] class of the absent
    [providers/base.py]; the data model gives it three strings and two
    optional strings. *)
Record SearchResult : Type := {
  title : string;
  url : string;
  snippet : string;
  source : option string;
  published_date : option string
}.

(** The two prompt constants of [utils.py]. No property depends on their
    text, so they are carried as a parameter. *)
Class PromptTemplates : Type := {
  search_prompt : string;
  fetch_prompt : string
}.

Module Formatter.

Definition separator : string :=
  Str.nl +:+ Str.nl +:+ "---" +:+ Str.nl +:+ Str.nl.

(** [if cond: parts.append(line)]. *)
Definition append_if (cond : bool) (line : string) (parts : list string)
  : list string :=
  if cond then parts ++ [line] else parts.

(** The body of the loop: the block of the [i]-th result. *)
Definition format_one (i : nat) (r : SearchResult) : string :=
  let parts := ["## Result " +:+ Str.of_nat i +:+ ": " +:+ title r] in
  let parts := append_if (Str.truthy (url r)) ("**URL:** " +:+ url r) parts in
  let parts :=
    append_if (Str.truthy (snippet r)) ("**Summary:** " +:+ snippet r) parts in
  let parts :=
    append_if (Str.truthy_opt (source r))
      ("**Source:** " +:+ default EmptyString (source r)) parts in
  let parts :=
    append_if (Str.truthy_opt (published_date r))
      ("**Published:** " +:+ default EmptyString (published_date r)) parts in
  Str.join Str.nl parts.

(** [for i, result in enumerate(results, 1): formatted.append(...)], with
    the counter and the accumulator made explicit. *)
Fixpoint format_loop (i : nat) (results : list SearchResult)
    (formatted : list string) : list string :=
  match results with
  | [] => formatted
  | r :: rest => format_loop (S i) rest (formatted ++ [format_one i r])
  end.

Definition format_search_results (results : list SearchResult) : string :=
  match results with
  | [] => "No results found."
  | _ :: _ => Str.join separator (format_loop 1 results [])
  end.

(** *** The formatter as its description words it *)

Definition block_header (i : nat) (r : SearchResult) : string :=
  "## Result " +:+ Str.of_nat i +:+ ": " +:+ title r.

(** A labelled line, present exactly when the field is non-empty. *)
Definition labelled (label : string) (value : option string) : list string :=
  match value with
  | Some (String a v) => [label +:+ String a v]
  | Some EmptyString | None => []
  end.

Definition block_fields (r : SearchResult) : list string :=
  labelled "**URL:** " (Some (url r))
  ++ labelled "**Summary:** " (Some (snippet r))
  ++ labelled "**Source:** " (source r)
  ++ labelled "**Published:** " (published_date r).

Definition described_block (i : nat) (r : SearchResult) : string :=
  Str.join Str.nl (block_header i r :: block_fields r).

Definition described_blocks (results : list SearchResult) : list string :=
  imap (fun k r => described_block (S k) r) results.

End Formatter.

(** ** The provider integration layer *)

(** The failures the layer reports, besides a missing setting. *)
Inductive ProviderError : Type :=
| TransportError (msg : string)
| UpstreamFormatError (msg : string)
| InvalidInputError (msg : string).

Inductive answer (A : Type) : Type :=
| Answer (a : A)
| Failure (e : ProviderError).
Arguments Answer {A} a.
Arguments Failure {A} e.

(** [GrokSearchProvider(api_url, api_key, model)], as the tool surface
    constructs it: the three strings resolved for the call. *)
Record GrokSearchProvider : Type := {
  api_url : string;
  api_key : string;
  model : string
}.

Module Provider.

(** Modelled from the spec: the error string of a failure, prefixed by
    its kind. *)
Definition error_string (e : ProviderError) : string :=
  match e with
  | TransportError msg => "TransportError: " +:+ msg
  | UpstreamFormatError msg => "UpstreamFormatError: " +:+ msg
  | InvalidInputError msg => "InvalidInputError: " +:+ msg
  end.

(** Modelled from the spec: the cleanup before the second decode. Code
    fences and prose around the array go: what is kept runs from the first
    opening bracket to the last closing bracket. *)
Fixpoint from_first_open (s : string) : string :=
  match s with
  | EmptyString => EmptyString
  | String c rest => if Ascii.eqb c "[" then s else from_first_open rest
  end.

Fixpoint upto_last_close (s : string) : string :=
  match s with
  | EmptyString => EmptyString
  | String c rest =>
      match upto_last_close rest with
      | EmptyString => if Ascii.eqb c "]" then String c EmptyString else EmptyString
      | String d t => String c (String d t)
      end
  end.

Definition strip_wrapping (s : string) : string :=
  upto_last_close (from_first_open s).

(** A text wrapped in a code fence marked as JSON. *)
Definition code_fenced (inner : string) : string :=
  "```json" +:+ Str.nl +:+ inner +:+ Str.nl +:+ "```".

(** Modelled from the spec: a request is valid when the query is not empty
    and [0 <= min_results <= max_results]. *)
Definition validate_search (query : string) (min_results max_results : Z)
  : option ProviderError :=
  if negb (Str.truthy query) then Some (InvalidInputError "query must not be empty")
  else if (min_results <? 0)%Z || (max_results <? min_results)%Z then
    Some (InvalidInputError "result bounds must satisfy 0 <= min_results <= max_results")
  else None.

(** Modelled from the spec: the user turn of a search, the query followed
    by the platform hint, when there is one, and by the bounds asked for. *)
Definition search_payload (query platform : string) (min_results max_results : Z)
  : string :=
  query
  +:+ (if Str.truthy platform then Str.nl +:+ "focus search on: " +:+ platform
       else EmptyString)
  +:+ Str.nl +:+ "return at least " +:+ Str.of_Z min_results
  +:+ " and at most " +:+ Str.of_Z max_results +:+ " results".

(** Modelled from the spec: a URL is accepted when it starts with one of
    the two schemes. *)
Definition valid_url (u : string) : bool :=
  Str.startswith "http://" u || Str.startswith "https://" u.

(** Modelled from the spec: one decoded entry as a [SearchResult]; an entry
    without a non-empty [title] or [url] gives none. The summary is the
    string under [description], else under [snippet], else empty. *)
Definition entry_snippet (e : json) : string :=
  match Json.str_field "description" e with
  | Some s => s
  | None => default EmptyString (Json.str_field "snippet" e)
  end.

Definition to_search_result (e : json) : option SearchResult :=
  match Json.str_field "title" e, Json.str_field "url" e with
  | Some t, Some u =>
      if Str.truthy t && Str.truthy u then
        Some {| title := t; url := u; snippet := entry_snippet e;
                source := Json.str_field "source" e;
                published_date := Json.str_field "published_date" e |}
      else None
  | _, _ => None
  end.

(** Modelled from the spec: truncate to [max_results] in the order given,
    then map each entry, dropping those that give no result. *)
Definition reconcile (max_results : Z) (entries : list json) : list SearchResult :=
  omap to_search_result (take (Z.to_nat max_results) entries).

Definition encode_result (r : SearchResult) : json :=
  JObject
    ([("title", JString (title r)); ("url", JString (url r));
      ("description", JString (snippet r))]
     ++ match source r with Some s => [("source", JString s)] | None => [] end
     ++ match published_date r with
        | Some d => [("published_date", JString d)]
        | None => []
        end).

Section WithLibraries.
Context `{!JsonCodec} `{!PromptTemplates}.

(** Modelled from the spec: the chat-completion request, one system
    message and one user message, not streamed. *)
Definition chat_request (p : GrokSearchProvider) (system user : string) : Request :=
  {| r_method := "POST";
     r_url := api_url p +:+ "/chat/completions";
     r_headers := [("Authorization", "Bearer " +:+ api_key p);
                   ("Content-Type", "application/json")];
     r_json := Some (JObject
       [("model", JString (model p));
        ("messages", JArray
           [JObject [("role", JString "system"); ("content", JString system)];
            JObject [("role", JString "user"); ("content", JString user)]]);
        ("stream", JBool false)]) |}.

(** Modelled from the spec: the assistant's text in a response body of the
    shape [{choices: [{message: {content: string}}]}]. *)
Definition extract_content (body : string) : option string :=
  v ← loads body;
  choices ← Json.field "choices" v ≫= Json.as_array;
  first ← head choices;
  message ← Json.field "message" first;
  Json.field "content" message ≫= Json.as_string.

(** Modelled from the spec: one request and the reading of its answer. A
    raised client exception or a status other than 200 is a transport
    failure; a body of another shape is a format failure. *)
Definition chat (p : GrokSearchProvider) (system user : string) (w : World)
  : answer string * World :=
  let '(reply, w') := Effects.send (chat_request p system user) w in
  match reply with
  | Raise e => (Failure (TransportError (exn_message e)), w')
  | Return resp =>
      if (status_code resp =? 200)%Z then
        match extract_content (text resp) with
        | Some content => (Answer content, w')
        | None => (Failure (UpstreamFormatError "no message content in the response"), w')
        end
      else (Failure (TransportError ("HTTP " +:+ Str.of_Z (status_code resp))), w')
  end.

(** Modelled from the spec: the strict decode of a JSON array. *)
Definition decode_array (s : string) : option (list json) :=
  loads s ≫= Json.as_array.

(** Modelled from the spec: the two-stage decode, strict first, then once
    more after the cleanup. *)
Definition decode_entries (content : string) : answer (list json) :=
  match decode_array content with
  | Some entries => Answer entries
  | None =>
      match decode_array (strip_wrapping content) with
      | Some entries => Answer entries
      | None => Failure (UpstreamFormatError "response is not a JSON array")
      end
  end.

(** Modelled from the spec: the model's text as the results of a search. *)
Definition interpret (max_results : Z) (content : string) : answer (list SearchResult) :=
  match decode_entries content with
  | Answer entries => Answer (reconcile max_results entries)
  | Failure e => Failure e
  end.

(** Modelled from the spec: [GrokSearchProvider.search], up to the typed
    outcome. *)
Definition search_items (p : GrokSearchProvider) (query platform : string)
    (min_results max_results : Z) (w : World) : answer (list SearchResult) * World :=
  match validate_search query min_results max_results with
  | Some e => (Failure e, w)
  | None =>
      let user := search_payload query platform min_results max_results in
      let '(reply, w') := chat p search_prompt user w in
      match reply with
      | Answer content => (interpret max_results content, w')
      | Failure e => (Failure e, w')
      end
  end.

(** Modelled from the spec: the string a search hands back, a JSON array
    of the results or the error string of the failure. *)
Definition render_search (r : answer (list SearchResult)) : string :=
  match r with
  | Answer items => dumps (JArray (map encode_result items))
  | Failure e => error_string e
  end.

Definition search (p : GrokSearchProvider) (query platform : string)
    (min_results max_results : Z) (ctx : bool) (w : World) : string * World :=
  let '(r, w') := search_items p query platform min_results max_results w in
  (render_search r, w').

(** Modelled from the spec: [GrokSearchProvider.fetch], up to the typed
    outcome: the URL is checked first, and the model's document is passed
    through when it is not empty. *)
Definition fetch_document (p : GrokSearchProvider) (u : string) (w : World)
  : answer string * World :=
  if negb (valid_url u) then
    (Failure (InvalidInputError ("URL must start with http:// or https://: " +:+ u)), w)
  else
    let '(reply, w') := chat p fetch_prompt u w in
    match reply with
    | Answer content =>
        if Str.truthy content then (Answer content, w')
        else (Failure (UpstreamFormatError "empty document"), w')
    | Failure e => (Failure e, w')
    end.

Definition render_fetch (r : answer string) : string :=
  match r with
  | Answer document => document
  | Failure e => error_string e
  end.

Definition fetch (p : GrokSearchProvider) (u : string) (ctx : bool) (w : World)
  : string * World :=
  let '(r, w') := fetch_document p u w in
  (render_fetch r, w').

End WithLibraries.

End Provider.

(** ** The tool surface ([grok_search/server.py]) *)

(** A search call that has resolved its configuration and built its
    provider, and now waits for I/O. *)
Record SearchCall : Type := {
  sc_provider : GrokSearchProvider;
  sc_query : string;
  sc_platform : string;
  sc_min_results : Z;
  sc_max_results : Z;
  sc_ctx : bool
}.

Record FetchCall : Type := {
  fc_provider : GrokSearchProvider;
  fc_url : string;
  fc_ctx : bool
}.

(** What the two calls on the provider are to the tool that awaits them:
    they return a string or raise, and may act on the world. *)
Definition SearchFn : Type :=
  GrokSearchProvider -> string -> string -> Z -> Z -> bool -> World
  -> result string * World.

Definition FetchFn : Type :=
  GrokSearchProvider -> string -> bool -> World -> result string * World.

(** Where a tool call stands when it first gives up control: it has
    returned or raised already, or it is suspended with its own state. *)
Inductive started (A : Type) : Type :=
| Done (r : result string)
| Awaiting (call : A).
Arguments Done {A} r.
Arguments Awaiting {A} call.

(** The float arithmetic of the connection test. A float is the rational
    it stands for; the difference, the product and [round(x, 2)] are what
    the machine and the interpreter make of them, which need not be the
    exact ones. *)
Class FloatArith : Type := {
  fl_sub : Q -> Q -> Q;      (* [a - b] *)
  fl_mul : Q -> Q -> Q;      (* [a * b] *)
  fl_round2 : Q -> Q         (* [round(a, 2)] *)
}.

(** What every float arithmetic does with signs: the difference of a
    reading and an earlier one, a thousand times a value and a rounding
    are not negative when what they are taken of is not. *)
Class FloatSigns `{!FloatArith} : Prop := {
  fl_sub_nonneg : forall a b : Q, (b <= a)%Q -> (0 <= fl_sub a b)%Q;
  fl_mul_nonneg : forall a : Q, (0 <= a)%Q -> (0 <= fl_mul a (inject_Z 1000))%Q;
  fl_round2_nonneg : forall a : Q, (0 <= a)%Q -> (0 <= fl_round2 a)%Q
}.

Module Server.

(** The exact arithmetic, to run the model: [round(x, 2)] to the nearest
    hundredth, ties to the even one. *)
Definition round_half_even (x : Q) : Z :=
  let f := Qfloor x in
  match (x - inject_Z f ?= 1 # 2)%Q with
  | Lt => f
  | Gt => (f + 1)%Z
  | Eq => if Z.even f then f else (f + 1)%Z
  end.

Definition round2 (x : Q) : Q := (round_half_even (x * 100) # 100)%Q.

Definition exact : FloatArith :=
  {| fl_sub := Qminus; fl_mul := Qmult; fl_round2 := round2 |}.

Definition initial_test_result : list (string * json) :=
  [("status", JString "Not tested"); ("message", JString EmptyString);
   ("response_time_ms", JInt 0)].

(** [test_result["message"]], a string throughout. *)
Definition message_of (test_result : list (string * json)) : string :=
  default EmptyString (Json.obj_get "message" test_result ≫= Json.as_string).

(** The [for] loop over [models_data["data"]]: the [id] of every entry
    that is a dict and has one. *)
Definition model_ids (data : list json) : list json :=
  omap (Json.field "id") data.

(** [client.get(models_url, headers=...)], the request of the
    connection test. *)
Definition models_request (api_url api_key : string) : Request :=
  let models_url := Str.rstrip "/" api_url +:+ "/models" in
  {| r_method := "GET"; r_url := models_url;
     r_headers := [("Authorization", "Bearer " +:+ api_key);
                   ("Content-Type", "application/json")];
     r_json := None |}.

Section WithLibraries.
Context `{!JsonCodec} `{!PromptTemplates} `{!FloatArith}.

(** Modelled from the spec: the [config] object and the [log_info] of
    [server.py] are those of [grok_search.config] and
    [grok_search.logger], which are not in the sources. Their
    [grok_api_url], [grok_api_key], [debug_enabled] and [log_info] are
    taken to be those of [search_mcp], which are in the sources and
    behave as section 4.2 says; [grok_model] is that of [ModelSelection].
    The properties of the tools are stated on what the accessors return
    or raise, whatever makes them do so.

    The body is the [try] block that opens [web_search] and [web_fetch]:
    the three values of the call, or the first exception of an
    accessor. *)
Definition resolve (c : Config) (m : ModelStore) : result (string * string * string) :=
  api_url ← ConfigResolver.grok_api_url c;
  api_key ← ConfigResolver.grok_api_key c;
  mret (api_url, api_key, ModelSelection.grok_model m).

(** The [except ValueError] clause that follows it: the message goes to
    [ctx.report_progress] when the call has a context, and an exception
    raised there leaves the tool, there being no handler around it. *)
Definition on_config_error (error_msg : string) (ctx : bool) (w : World)
  : result string * World :=
  if ctx then
    let '(r, w) := Effects.report_progress error_msg w in
    match r with
    | Return _ => (Return ("Configuration error: " +:+ error_msg), w)
    | Raise e => (Raise e, w)
    end
  else (Return ("Configuration error: " +:+ error_msg), w).

(** [web_search], up to its first [await]. *)
Definition web_search_start (c : Config) (m : ModelStore) (query platform : string)
    (min_results max_results : Z) (ctx : bool) (w : World)
  : started SearchCall * World :=
  match resolve c m with
  | Raise (ValueError error_msg) =>
      let '(r, w) := on_config_error error_msg ctx w in (Done r, w)
  | Raise e => (Done (Raise e), w)
  | Return (api_url, api_key, model) =>
      let grok_provider :=
        {| api_url := api_url; api_key := api_key; model := model |} in
      (Awaiting {| sc_provider := grok_provider; sc_query := query;
                   sc_platform := platform; sc_min_results := min_results;
                   sc_max_results := max_results; sc_ctx := ctx |}, w)
  end.

(** [web_search], from its first [await] on; the configuration is the one
    of the moment the call goes on. [search] is the call
    [await grok_provider.search(...)]: seen from the tool it returns a
    string or raises, and nothing around it catches. *)
Definition web_search_resume_with (search : SearchFn) (c : Config) (call : SearchCall)
    (w : World) : result string * World :=
  let w :=
    Logger.log_info (sc_ctx call) ("Begin Search: " +:+ sc_query call)
      (ConfigResolver.debug_enabled c) w in
  let '(r, w) :=
    search (sc_provider call) (sc_query call) (sc_platform call)
      (sc_min_results call) (sc_max_results call) (sc_ctx call) w in
  match r with
  | Raise e => (Raise e, w)
  | Return results =>
      let w :=
        Logger.log_info (sc_ctx call) "Search Finished!"
          (ConfigResolver.debug_enabled c) w in
      (Return results, w)
  end.

Definition web_search_with (search : SearchFn) (c : Config) (m : ModelStore)
    (query platform : string) (min_results max_results : Z) (ctx : bool) (w : World)
  : result string * World :=
  let '(s, w) := web_search_start c m query platform min_results max_results ctx w in
  match s with
  | Done r => (r, w)
  | Awaiting call => web_search_resume_with search c call w
  end.

(** The tool with the provider of the design, which hands every failure
    back as a string. *)
Definition provider_search : SearchFn :=
  fun p query platform min_results max_results ctx w =>
    let '(results, w) := Provider.search p query platform min_results max_results ctx w in
    (Return results, w).


Definition web_search (c : Config) (m : ModelStore) (query platform : string)
    (min_results max_results : Z) (ctx : bool) (w : World) : result string * World :=
  web_search_with provider_search c m query platform min_results max_results ctx w.

(** [web_fetch], up to its first [await]. *)
Definition web_fetch_start (c : Config) (m : ModelStore) (u : string) (ctx : bool)
    (w : World) : started FetchCall * World :=
  match resolve c m with
  | Raise (ValueError error_msg) =>
      let '(r, w) := on_config_error error_msg ctx w in (Done r, w)
  | Raise e => (Done (Raise e), w)
  | Return (api_url, api_key, model) =>
      (Awaiting {| fc_provider :=
                     {| api_url := api_url; api_key := api_key; model := model |};
                   fc_url := u; fc_ctx := ctx |}, w)
  end.

Definition web_fetch_resume_with (fetch : FetchFn) (c : Config) (call : FetchCall)
    (w : World) : result string * World :=
  let w :=
    Logger.log_info (fc_ctx call) ("Begin Fetch: " +:+ fc_url call)
      (ConfigResolver.debug_enabled c) w in
  let grok_provider := fc_provider call in
  let '(r, w) := fetch grok_provider (fc_url call) (fc_ctx call) w in
  match r with
  | Raise e => (Raise e, w)
  | Return results =>
      let w :=
        Logger.log_info (fc_ctx call) "Fetch Finished!"
          (ConfigResolver.debug_enabled c) w in
      (Return results, w)
  end.

Definition web_fetch_with (fetch : FetchFn) (c : Config) (m : ModelStore) (u : string)
    (ctx : bool) (w : World) : result string * World :=
  let '(s, w) := web_fetch_start c m u ctx w in
  match s with
  | Done r => (r, w)
  | Awaiting call => web_fetch_resume_with fetch c call w
  end.

Definition provider_fetch : FetchFn :=
  fun p u ctx w =>
    let '(results, w) := Provider.fetch p u ctx w in (Return results, w).


Definition web_fetch (c : Config) (m : ModelStore) (u : string) (ctx : bool)
    (w : World) : result string * World :=
  web_fetch_with provider_fetch c m u ctx w.

(** The inner [try] of [get_config_info]: the model list of the body is
    added to the report. A body that does not decode, or decodes to
    anything but a dict with a list under [data], leaves the report as it
    is (the bare [except] passes). *)
Definition add_models (body : string) (test_result : list (string * json))
  : list (string * json) :=
  match loads body with
  | Some (JObject models_data) =>
      match Json.obj_get "data" models_data with
      | Some (JArray data) =>
          let model_count := length data in
          let test_result :=
            Json.obj_set "message"
              (JString (message_of test_result +:+ ", total "
                        +:+ Str.of_nat model_count +:+ " models"))
              test_result in
          let model_names := model_ids data in
          match model_names with
          | [] => test_result
          | _ :: _ => Json.obj_set "available_models" (JArray model_names) test_result
          end
      | _ => test_result
      end
  | _ => test_result
  end.

(** The outer [try] of [get_config_info]: [t0] and [t1] are the readings
    of [time.time()] before and after the request, in seconds. The two
    accessors are read as in [resolve]. *)
Definition connection_test (c : Config) (t0 t1 : Q) (test_result : list (string * json))
    (w : World) : result (list (string * json)) * World :=
  match ConfigResolver.grok_api_url c with
  | Raise e => (Raise e, w)
  | Return api_url =>
  match ConfigResolver.grok_api_key c with
  | Raise e => (Raise e, w)
  | Return api_key =>
      let '(reply, w) := Effects.send (models_request api_url api_key) w in
      match reply with
      | Raise e => (Raise e, w)
      | Return response =>
          let response_time := fl_mul (fl_sub t1 t0) (inject_Z 1000) in
          if (status_code response =? 200)%Z then
            let test_result :=
              Json.obj_set "status" (JString "✅ Connection successful") test_result in
            let test_result :=
              Json.obj_set "message"
                (JString ("Successfully retrieved model list (HTTP "
                          +:+ Str.of_Z (status_code response) +:+ ")"))
                test_result in
            let test_result :=
              Json.obj_set "response_time_ms" (JFloat (fl_round2 response_time))
                test_result in
            (Return (add_models (text response) test_result), w)
          else
            let test_result :=
              Json.obj_set "status" (JString "⚠️ Connection abnormal") test_result in
            let test_result :=
              Json.obj_set "message"
                (JString ("HTTP " +:+ Str.of_Z (status_code response) +:+ ": "
                          +:+ Str.take 100 (text response)))
                test_result in
            let test_result :=
              Json.obj_set "response_time_ms" (JFloat (fl_round2 response_time))
                test_result in
            (Return test_result, w)
      end
  end
  end.

(** The [except] clauses of [get_config_info], in their order. *)
Definition on_test_exception (e : exn) (test_result : list (string * json))
  : list (string * json) :=
  match e with
  | TimeoutException _ =>
      Json.obj_set "message"
        (JString "Request timeout (10 seconds), please check network connection or API URL")
        (Json.obj_set "status" (JString "❌ Connection timeout") test_result)
  | RequestError msg =>
      Json.obj_set "message" (JString ("Network error: " +:+ msg))
        (Json.obj_set "status" (JString "❌ Connection failed") test_result)
  | ValueError msg =>
      Json.obj_set "message" (JString msg)
        (Json.obj_set "status" (JString "❌ Configuration error") test_result)
  | _ =>
      Json.obj_set "message" (JString ("Unknown error: " +:+ exn_message e))
        (Json.obj_set "status" (JString "❌ Test failed") test_result)
  end.

(** The dict [get_config_info] serialises. [config_info] is what
    [config.get_config_info()] returned; that method is not in the
    sources. *)
Definition get_config_info_dict (c : Config) (config_info : list (string * json))
    (t0 t1 : Q) (w : World) : list (string * json) * World :=
  let test_result := initial_test_result in
  let '(r, w) := connection_test c t0 t1 test_result w in
  let test_result :=
    match r with
    | Return updated => updated
    | Raise e => on_test_exception e test_result
    end in
  (Json.obj_set "connection_test" (JObject test_result) config_info, w).

Definition get_config_info (c : Config) (config_info : list (string * json))
    (t0 t1 : Q) (w : World) : result string * World :=
  let '(d, w) := get_config_info_dict c config_info t0 t1 w in
  (Return (dumps (JObject d)), w).

(** The dict [switch_model] serialises, and the store it leaves. *)
Definition switch_model_dict (model : string) (m : ModelStore)
  : list (string * json) * ModelStore :=
  let previous_model := ModelSelection.grok_model m in
  let '(r, m') := ModelSelection.set_model model m in
  match r with
  | Return _ =>
      let current_model := ModelSelection.grok_model m' in
      ([("status", JString "✅ Success");
        ("previous_model", JString previous_model);
        ("current_model", JString current_model);
        ("message", JString ("Model switched from " +:+ previous_model +:+ " to "
                             +:+ current_model));
        ("config_file", JString (config_file m'))], m')
  | Raise (ValueError msg) =>
      ([("status", JString "❌ Failed");
        ("message", JString ("Failed to switch model: " +:+ msg))], m')
  | Raise e =>
      ([("status", JString "❌ Failed");
        ("message", JString ("Unknown error: " +:+ exn_message e))], m')
  end.


End WithLibraries.


(** The model a chat-completion request names. *)
Definition request_model (req : Request) : option json :=
  r_json req ≫= Json.field "model".

End Server.

(** ** The [Config] class as a singleton ([search_mcp/config.py]) *)

(** The class attributes: [_instance], and the [_config_data] every
    instance sees until its own is loaded, the empty dict. *)
Record ConfigClass : Type := { _instance : option Config }.

Module Singleton.

Definition unloaded : Config :=
  {| _config_data := {| strings := ∅; bools := ∅ |} |}.

(** [Config()]: [__new__] stores the new instance in the class before it
    loads the file, so an instance stays behind when the load raises. *)
Definition Config_call (cls : ConfigClass) (fs : FileSystem) : result Config * ConfigClass :=
  match _instance cls with
  | Some c => (Return c, cls)
  | None =>
      match ConfigResolver._load_config fs with
      | Return c => (Return c, {| _instance := Some c |})
      | Raise e => (Raise e, {| _instance := Some unloaded |})
      end
  end.

End Singleton.

(** ** [toggle_builtin_tools] ([grok_search/server.py]) *)

(** What becomes of a write, [mkdir], [open(path, 'w')] and
    [json.dump(settings, f)] in turn. *)
Inductive WriteOutcome : Type :=
| Written
    (* the three steps succeed: the file holds the text *)
| NotOpened (e : exn)
    (* [mkdir] or [open] raises: the file is as it was *)
| Interrupted (e : exn) (kept : string).
    (* [open] has emptied the file and the dump raises on the way, on an
       I/O error or on a text it cannot encode: the file holds what was
       written until then *)

(** The part of the file system the tool sees. Paths are POSIX paths;
    files that exist can be read. *)
Record Workspace : Type := {
  cwd : list string;
    (* the directory names of [Path.cwd()], innermost first; the empty
       list is the root of the file system *)
  has_git : list string -> bool;
    (* [(dir / ".git").exists()] *)
  files : gmap string string;
    (* the text files, by path *)
  write_outcome : string -> string -> WriteOutcome
    (* what becomes of writing a text to a path *)
}.

Inductive Action : Type := TurnOn | TurnOff | Status.

Module Toggle.

Definition tools : list string := ["WebFetch"; "WebSearch"].

(** The loop that locates the project root: it climbs from [root] until
    a directory has [.git] or is the root of the file system. *)
Fixpoint project_root (has_git : list string -> bool) (root : list string)
  : list string :=
  match root with
  | [] => []
  | _ :: parent => if has_git root then root else project_root has_git parent
  end.

Definition path_of (dir : list string) : string :=
  String.concat EmptyString (map (fun name => "/" +:+ name) (rev dir)).

Definition settings_path (root : list string) : string :=
  path_of root +:+ "/.claude/settings.json".

(** [v == t] for a string [t]: only an equal string equals it. *)
Definition is_string (t : string) (v : json) : bool :=
  match v with JString s => String.eqb s t | _ => false end.

(** [t in deny], for a list [deny]. *)
Definition denied (t : string) (deny : list json) : bool := existsb (is_string t) deny.

(** [v in tools]. *)
Definition is_tool (v : json) : bool := existsb (fun t => is_string t v) tools.

(** [all(t in deny for t in tools)]. *)
Definition all_denied (deny : list json) : bool :=
  forallb (fun t => denied t deny) tools.

(** [for t in tools: if t not in deny: deny.append(t)]. *)
Definition deny_on (deny : list json) : list json :=
  foldl (fun deny t => if denied t deny then deny else deny ++ [JString t]) deny tools.

(** [deny[:] = [t for t in deny if t not in tools]]. *)
Definition deny_off (deny : list json) : list json :=
  List.filter (fun v => negb (is_tool v)) deny.

(** [action in ["on", "enable"]], [action in ["off", "disable"]], else. *)
Definition classify (action : string) : Action :=
  if String.eqb action "on" || String.eqb action "enable" then TurnOn
  else if String.eqb action "off" || String.eqb action "disable" then TurnOff
  else Status.

Definition type_name (v : json) : string :=
  match v with
  | JNull => "NoneType"
  | JBool _ => "bool"
  | JInt _ => "int"
  | JFloat _ => "float"
  | JString _ => "str"
  | JArray _ => "list"
  | JObject _ => "dict"
  end.

Definition no_setdefault (v : json) : exn :=
  AttributeError ("'" +:+ type_name v +:+ "' object has no attribute 'setdefault'").

(** [settings.setdefault("permissions", {}).setdefault("deny", [])]: the
    members of [settings], the members of its [permissions] and the list
    under [deny], or the [AttributeError] of a [setdefault] on a value
    that is no dict. A [deny] that is present and is no list is outside
    this embedding: [None]. *)
Definition open_settings (settings : json)
  : option (result (list (string * json) * list (string * json) * list json)) :=
  match settings with
  | JObject top =>
      match default (JObject []) (Json.obj_get "permissions" top) with
      | JObject permissions =>
          match Json.obj_get "deny" permissions with
          | None => Some (Return (top, permissions, []))
          | Some (JArray deny) => Some (Return (top, permissions, deny))
          | Some _ => None
          end
      | other => Some (Raise (no_setdefault other))
      end
  | other => Some (Raise (no_setdefault other))
  end.

(** [settings] as it stands once [deny] has been updated in place: both
    keys keep their place, or stand last when [setdefault] added them. *)
Definition with_deny (top permissions : list (string * json)) (deny : list json) : json :=
  JObject
    (Json.obj_set "permissions"
       (JObject (Json.obj_set "deny" (JArray deny) permissions)) top).

(** The settings of a project that has no settings file. *)
Definition initial_settings : json :=
  JObject [("permissions", JObject [("deny", JArray [])])].

(** The dict the tool serialises. *)
Definition report (blocked : bool) (deny : list json) (path msg : string)
  : list (string * json) :=
  [("blocked", JBool blocked); ("deny_list", JArray deny);
   ("file", JString path); ("message", JString msg)].

Section WithLibraries.
Context `{!JsonCodec}.

(** [if settings_path.exists(): settings = json.load(f) else: ...]; a
    text that does not decode raises [JSONDecodeError], a [ValueError],
    with the decoder's message. *)
Definition load_settings (path : string) (ws : Workspace) : result json :=
  match files ws !! path with
  | Some text =>
      match loads text with
      | Some settings => Return settings
      | None => Raise (ValueError (decode_error text))
      end
  | None => Return initial_settings
  end.

(** The workspace once the file at [path] holds [text]. *)
Definition holding (path text : string) (ws : Workspace) : Workspace :=
  {| cwd := cwd ws; has_git := has_git ws;
     files := <[path := text]> (files ws); write_outcome := write_outcome ws |}.

Definition written (path : string) (settings : json) (ws : Workspace) : Workspace :=
  holding path (dumps settings) ws.

(** [mkdir(parents=True, exist_ok=True)], [open(..., 'w')] and
    [json.dump(settings, f)]: the write is not atomic. *)
Definition write_settings (path : string) (settings : json) (ws : Workspace)
  : result unit * Workspace :=
  match write_outcome ws path (dumps settings) with
  | Written => (Return (), written path settings ws)
  | NotOpened e => (Raise e, ws)
  | Interrupted e kept => (Raise e, holding path kept ws)
  end.

(** The tool, up to the dict it serialises. [None]: the settings have a
    [deny] that is no list. *)
Definition toggle_dict (action : string) (ws : Workspace)
  : option (result (list (string * json)) * Workspace) :=
  let root := project_root (has_git ws) (cwd ws) in
  let path := settings_path root in
  match load_settings path ws with
  | Raise e => Some (Raise e, ws)
  | Return settings =>
      match open_settings settings with
      | None => None
      | Some (Raise e) => Some (Raise e, ws)
      | Some (Return (top, permissions, deny)) =>
          let blocked := all_denied deny in
          match classify action with
          | TurnOn =>
              let deny := deny_on deny in
              match write_settings path (with_deny top permissions deny) ws with
              | (Raise e, ws) => Some (Raise e, ws)
              | (Return _, ws) =>
                  Some (Return (report true deny path "Built-in tools disabled"), ws)
              end
          | TurnOff =>
              let deny := deny_off deny in
              match write_settings path (with_deny top permissions deny) ws with
              | (Raise e, ws) => Some (Raise e, ws)
              | (Return _, ws) =>
                  Some (Return (report false deny path "Built-in tools enabled"), ws)
              end
          | Status =>
              let msg :=
                "Built-in tools currently "
                +:+ (if blocked then "disabled" else "enabled") in
              Some (Return (report blocked deny path msg), ws)
          end
      end
  end.

Definition toggle_builtin_tools (action : string) (ws : Workspace)
  : option (result string * Workspace) :=
  match toggle_dict action ws with
  | Some (Return d, ws) => Some (Return (dumps (JObject d)), ws)
  | Some (Raise e, ws) => Some (Raise e, ws)
  | None => None
  end.

End WithLibraries.

End Toggle.

(** ** Concrete configurations, worlds and responses, to run the model *)

Module Sample.

(** The attributes of the logging module that the examples name: two
    of its flags, a function and a format string. *)
Definition logging : LoggingModule :=
  {| attribute := fun name =>
       if String.eqb name "raiseExceptions" then Some (Level 1)
       else if String.eqb name "logThreads" then Some (Level 1)
       else if String.eqb name "info" then
         Some (Unfit (TypeError "Level not an integer or a valid string: <function info>"))
       else if String.eqb name "BASIC_FORMAT" then
         Some (Unfit (ValueError "Unknown level: '%(levelname)s:%(name)s:%(message)s'"))
       else None |}.

(** The templates, by their first heading. *)
Definition prompts : PromptTemplates :=
  {| search_prompt := "# Role: MCP Efficient Search Assistant";
     fetch_prompt := "# Profile: Web Content Fetcher" |}.

Definition config_with (grok : gmap string string) (logging : gmap string string)
  : Config :=
  {| _config_data :=
       {| strings := {[ "grok" := grok; "logging" := logging ]}; bools := ∅ |} |}.

(** Both settings present. *)
Definition complete : Config :=
  config_with {[ "api_url" := "https://api.example.test/v1/"; "api_key" := "sk-test" ]} ∅.

(** [api_key] present and [api_url] absent. *)
Definition no_url : Config := config_with {[ "api_key" := "sk-test" ]} ∅.

(** A log level that is no attribute of the logging module. *)
Definition verbose : Config :=
  config_with {[ "api_url" := "https://api.example.test/v1/"; "api_key" := "sk-test" ]}
    {[ "level" := "VERBOSE" ]}.

(** A log level that names a flag of the logging module. *)
Definition flagged : Config :=
  config_with {[ "api_url" := "https://api.example.test/v1/"; "api_key" := "sk-test" ]}
    {[ "level" := "raiseExceptions" ]}.

(** Dicts as [tomllib] may yield them: the key alone, a number for the
    address, and a string where the table is expected. *)
Definition key_only : list (string * toml) :=
  [("grok", TTable [("api_key", TString "sk-test")])].

Definition numbered : list (string * toml) :=
  [("grok", TTable [("api_url", TInteger 0); ("api_key", TString "sk-test")])].

Definition untabled : list (string * toml) := [("grok", TString "x")].

Definition disk (file : option TomlFile) : FileSystem :=
  {| config_path := "config.toml"; config_toml := file;
     can_mkdir := fun _ => true; can_open_log := fun _ => true;
     mkdir_error := fun dir => OSError ("Permission denied: " +:+ dir);
     open_log_error := fun dir => OSError ("Permission denied: " +:+ dir) |}.

Definition store (env : option string) : ModelStore :=
  {| switched_model := None;
     env_model := env; saved_model := None; default_model := "grok-4-fast";
     config_file := "~/.config/grok-search/config.json";
     save_failure := None |}.

(** A world in which nothing has happened and every request gets [reply]. *)
Definition world (reply : result HttpResponse) : World :=
  {| requests := []; upstream := fun _ _ => reply; ctx_events := [];
     progress_reply := fun _ => Return (); log_lines := [] |}.

(** The same world for a call whose context rejects a text as progress. *)
Definition strict_world (reply : result HttpResponse) : World :=
  {| requests := []; upstream := fun _ _ => reply; ctx_events := [];
     progress_reply := fun text =>
       Raise (ValueError ("progress: input should be a valid number: " +:+ text));
     log_lines := [] |}.

Definition ok (body : string) : result HttpResponse :=
  Return {| status_code := 200; text := body |}.

(** A chat-completion body whose assistant message is [content]. *)
Definition chat_body (content : string) : string :=
  RefCodec.json_dumps
    (JObject [("choices", JArray
       [JObject [("message", JObject [("role", JString "assistant");
                                      ("content", JString content)])]])]).

Definition entry (n : nat) : json :=
  JObject [("title", JString ("Result " +:+ Str.of_nat n));
           ("url", JString ("https://example.test/" +:+ Str.of_nat n));
           ("description", JString ("About " +:+ Str.of_nat n))].

Definition hit (n : nat) : SearchResult :=
  {| title := "Result " +:+ Str.of_nat n;
     url := "https://example.test/" +:+ Str.of_nat n;
     snippet := "About " +:+ Str.of_nat n;
     source := None; published_date := None |}.

(** Fifteen valid entries, as a model would rank them. *)
Definition fifteen : list json := entry <$> seq 1 15.

Definition provider : GrokSearchProvider :=
  {| api_url := "https://api.example.test/v1"; api_key := "sk-test";
     model := "grok-4-fast" |}.

(** The endpoint ranks fifteen results. *)
Definition fifteen_world : World :=
  world (ok (chat_body (RefCodec.json_dumps (JArray fifteen)))).

(** An array with an entry that has no [url] and an entry whose
    [description] is null. *)
Definition mixed : list json :=
  [entry 1;
   JObject [("title", JString "No link")];
   JObject [("title", JString "Bare"); ("url", JString "https://example.test/bare");
            ("description", JNull)]].

Definition mixed_world : World :=
  world (ok (chat_body (RefCodec.json_dumps (JArray mixed)))).

Definition bare : SearchResult :=
  {| title := "Bare"; url := "https://example.test/bare"; snippet := EmptyString;
     source := None; published_date := None |}.

(** The endpoint answers with two entries, bare and in a code fence. *)
Definition pair : list json := [entry 1; entry 2].

Definition pair_world : World := world (ok (chat_body (RefCodec.json_dumps (JArray pair)))).

Definition fenced_world : World :=
  world (ok (chat_body (Provider.code_fenced (RefCodec.json_dumps (JArray pair))))).

(** The endpoint answers with text that is no JSON at all. *)
Definition garbage_world : World := world (ok (chat_body "I could not find anything.")).

Definition listing_world : World :=
  world (ok (RefCodec.json_dumps
               (JObject [("object", JString "list");
                         ("data", JArray [JObject [("id", JString "grok-4-fast")];
                                          JObject [("id", JString "grok-3")]])]))).

(** A models listing with the given entries under [data]. *)
Definition models_body (data : list json) : string :=
  RefCodec.json_dumps (JObject [("object", JString "list"); ("data", JArray data)]).

Definition model_entry (id : string) : json :=
  JObject [("id", JString id); ("object", JString "model")].

(** A project checked out at [/home/dev/project], seen from its [src]
    directory, whose settings deny one tool of their own. *)
Definition project_settings : json :=
  JObject [("model", JString "opus");
           ("permissions", JObject [("allow", JArray [JString "Bash"]);
                                    ("deny", JArray [JString "Read(.env)"])])].

Definition project_with (settings_text : option string) : Workspace :=
  {| cwd := ["src"; "project"; "dev"; "home"];
     has_git := fun dir => bool_decide (dir = ["project"; "dev"; "home"]);
     files :=
       match settings_text with
       | Some text => {[ "/home/dev/project/.claude/settings.json" := text ]}
       | None => ∅
       end;
     write_outcome := fun _ _ => Written |}.

Definition project : Workspace :=
  project_with (Some (RefCodec.json_dumps project_settings)).

Definition project_file : string := "/home/dev/project/.claude/settings.json".



(** The same project on a disk that fills up as the settings are
    written. *)
Definition full_disk_project : Workspace :=
  {| cwd := cwd project; has_git := has_git project; files := files project;
     write_outcome := fun _ _ => Interrupted (OSError "No space left on device") "{" |}.

(** The same project with a settings file that is no JSON. *)
Definition broken_project : Workspace := project_with (Some "{ permissions: ").

(** A models listing with an entry that is no dict and one without id. *)
Definition ragged_world : World :=
  world (ok (models_body [model_entry "grok-4-fast"; JString "grok-3";
                          JObject [("object", JString "model")]])).

Definition failing_world (e : exn) : World := world (Raise e).



Definition busy_world : World :=
  world (Return {| status_code := 503; text := "upstream overloaded" |}).

End Sample.

(** * Properties *)

(** ** The result formatter *)

Section FormatterFacts.
Import Formatter.

Lemma format_one_described (i : nat) (r : SearchResult) :
  format_one i r = described_block i r.
Proof.
  destruct r as [t u s src pub].
  unfold format_one, described_block, block_fields, block_header, append_if; simpl.
  destruct u, s, src as [[|]|], pub as [[|]|]; reflexivity.
Qed.

Lemma format_loop_blocks (results : list SearchResult) :
  forall (i : nat) (formatted : list string),
    format_loop i results formatted
    = formatted ++ imap (fun k r => described_block (i + k) r) results.
Proof.
  induction results as [|r rest IH]; intros i formatted; simpl.
  - by rewrite app_nil_r.
  - rewrite IH, <- app_assoc. simpl.
    rewrite format_one_described, Nat.add_0_r.
    do 2 f_equal. apply imap_ext. intros k x _. simpl. f_equal. lia.
Qed.

(** C10. [format_search_results] gives "No results found." for the empty
    list. For a non-empty list it gives one block per result, in the order
    of the input, joined by the text made of two newlines, three dashes
    and two newlines. The block at position [k] (from zero) is made of
    lines joined by one newline: the line "## Result k+1: title", then
    the "**URL:** ", "**Summary:** ", "**Source:** " and "**Published:** "
    lines of the fields that are not empty, in this order. Every text is
    written out here, character by character where it is a newline. *)
Theorem format_search_results_described :
  format_search_results [] = "No results found."
  /\ forall (r : SearchResult) (rest : list SearchResult),
       format_search_results (r :: rest)
       = String.concat
           (String "010"%char (String "010"%char
              (String "-"%char (String "-"%char (String "-"%char
                 (String "010"%char (String "010"%char EmptyString)))))))
           (imap
              (fun (k : nat) (x : SearchResult) =>
                 String.concat (String "010"%char EmptyString)
                   (("## Result " +:+ NilEmpty.string_of_uint (Nat.to_uint (S k))
                     +:+ ": " +:+ title x)
                    :: (match url x with
                        | EmptyString => []
                        | String _ _ => ["**URL:** " +:+ url x]
                        end
                        ++ match snippet x with
                           | EmptyString => []
                           | String _ _ => ["**Summary:** " +:+ snippet x]
                           end
                        ++ match source x with
                           | Some (String a s) => ["**Source:** " +:+ String a s]
                           | Some EmptyString | None => []
                           end
                        ++ match published_date x with
                           | Some (String a s) => ["**Published:** " +:+ String a s]
                           | Some EmptyString | None => []
                           end)))
              (r :: rest)).
Proof.
  split; [reflexivity|]. intros r rest.
  unfold format_search_results. rewrite format_loop_blocks.
  change ([] ++ ?l) with l. unfold Str.join.
  f_equal. apply imap_ext. intros k x _.
  destruct x as [t u s src pub].
  unfold described_block, block_header, block_fields, labelled, Str.join, Str.of_nat.
  cbn [title url snippet source published_date Nat.add].
  destruct u, s, src as [[|]|], pub as [[|]|]; reflexivity.
Qed.

End FormatterFacts.

(** ** The configuration resolver *)

Section ConfigFacts.
Import ConfigResolver.


Lemma accessor_cases (setting : option string) (msg : string) :
  (unset setting
   /\ (if negb (Str.truthy_opt setting) then Raise (ValueError msg)
       else Return (default EmptyString setting)) = Raise (ValueError msg))
  \/ (exists v, setting = Some v /\ v <> EmptyString
      /\ (if negb (Str.truthy_opt setting) then Raise (ValueError msg)
          else Return (default EmptyString setting)) = Return v).
Proof.
  destruct setting as [[|a s]|]; simpl.
  - left. split; [by right | done].
  - right. exists (String a s). done.
  - left. split; [by left | done].
Qed.

Lemma grok_api_url_cases (c : Config) :
  (unset (get_str c "grok" "api_url")
   /\ grok_api_url c = Raise (ValueError "grok.api_url not configured"))
  \/ (exists v, get_str c "grok" "api_url" = Some v /\ v <> EmptyString
      /\ grok_api_url c = Return v).
Proof. apply accessor_cases. Qed.

Lemma grok_api_key_cases (c : Config) :
  (unset (get_str c "grok" "api_key")
   /\ grok_api_key c = Raise (ValueError "grok.api_key not configured"))
  \/ (exists v, get_str c "grok" "api_key" = Some v /\ v <> EmptyString
      /\ grok_api_key c = Return v).
Proof. apply accessor_cases. Qed.

Lemma not_unset_value (setting : option string) (v : string) :
  setting = Some v -> v <> EmptyString -> ~ unset setting.
Proof. intros -> Hv [H|H]; [done | by inversion H]. Qed.

Lemma grok_api_url_raises_iff (c : Config) :
  (exists e, grok_api_url c = Raise e) <-> unset (get_str c "grok" "api_url").
Proof.
  destruct (grok_api_url_cases c) as [[Hu Hr]|(v & Hs & Hv & Hr)]; rewrite Hr.
  - split; eauto.
  - split; [intros [e He]; done | intros Hu].
    by destruct (not_unset_value _ _ Hs Hv).
Qed.

Lemma grok_api_key_raises_iff (c : Config) :
  (exists e, grok_api_key c = Raise e) <-> unset (get_str c "grok" "api_key").
Proof.
  destruct (grok_api_key_cases c) as [[Hu Hr]|(v & Hs & Hv & Hr)]; rewrite Hr.
  - split; eauto.
  - split; [intros [e He]; done | intros Hu].
    by destruct (not_unset_value _ _ Hs Hv).
Qed.

Lemma grok_api_url_only_ValueError (c : Config) (e : exn) :
  grok_api_url c = Raise e -> e = ValueError "grok.api_url not configured".
Proof.
  destruct (grok_api_url_cases c) as [[_ Hr]|(v & _ & _ & Hr)]; rewrite Hr;
    congruence.
Qed.

Lemma grok_api_key_only_ValueError (c : Config) (e : exn) :
  grok_api_key c = Raise e -> e = ValueError "grok.api_key not configured".
Proof.
  destruct (grok_api_key_cases c) as [[_ Hr]|(v & _ & _ & Hr)]; rewrite Hr;
    congruence.
Qed.

(** Loading looks at the file only: it succeeds exactly on a document. *)
Lemma Config_new_returns_iff (fs : FileSystem) :
  returns (Config_new fs) <-> exists d, config_toml fs = Some (Document d).
Proof.
  unfold returns, Config_new, _load_config.
  destruct (config_toml fs) as [[e|d]|]; split.
  all: try (intros [x Hx]; done).
  - eauto.
  - intros [c Hc]. eauto.
Qed.

End ConfigFacts.

(** ** Effects: what the sinks leave untouched *)

Section EffectFacts.

Lemma log_info_requests (ctx : bool) (message : string) (is_debug : bool) (w : World) :
  requests (Logger.log_info ctx message is_debug w) = requests w.
Proof. unfold Logger.log_info. by destruct is_debug, ctx. Qed.

Lemma log_info_upstream (ctx : bool) (message : string) (is_debug : bool) (w : World) :
  upstream (Logger.log_info ctx message is_debug w) = upstream w.
Proof. unfold Logger.log_info. by destruct is_debug, ctx. Qed.

Lemma send_requests (req : Request) (w : World) :
  requests (Effects.send req w).2 = requests w ++ [req].
Proof. reflexivity. Qed.

Lemma send_reply (req : Request) (w : World) :
  (Effects.send req w).1 = upstream w (requests w) req.
Proof. reflexivity. Qed.

End EffectFacts.

(** ** The accessors on an untyped dict *)

Section RawConfigFacts.
Import RawConfig.

Lemma truthy_false_iff (v : toml) :
  truthy v = false
  <-> v = TString EmptyString \/ v = TInteger 0 \/ (exists q, v = TFloat q /\ (q == 0)%Q)
      \/ v = TBoolean false \/ v = TArray [] \/ v = TTable [].
Proof.
  destruct v as [s|z|q|n|b|k t|items|members]; simpl.
  - destruct s; split; intros Hv; try done; [by left|].
    destruct Hv as [Hv|[Hv|[(q & Hv & _)|[Hv|[Hv|Hv]]]]]; done.
  - destruct (Z.eqb_spec z 0) as [->|Hz]; simpl; split; intros Hv; try done.
    + right; by left.
    + destruct Hv as [Hv|[Hv|[(q & Hv & _)|[Hv|[Hv|Hv]]]]]; try done.
      injection Hv as ->. done.
  - destruct (Qeq_bool q 0) eqn:Hq; simpl; split; intros Hv; try done.
    + right; right; left. exists q. split; [done|]. by apply Qeq_bool_iff.
    + destruct Hv as [Hv|[Hv|[(q' & Hv & Hz)|[Hv|[Hv|Hv]]]]]; try done.
      injection Hv as <-. apply Qeq_bool_iff in Hz. congruence.
  - split; intros Hv; [done|].
    destruct Hv as [Hv|[Hv|[(q & Hv & _)|[Hv|[Hv|Hv]]]]]; done.
  - destruct b; split; intros Hv; try done.
    + destruct Hv as [Hv|[Hv|[(q & Hv & _)|[Hv|[Hv|Hv]]]]]; done.
    + do 3 right; by left.
  - split; intros Hv; [done|].
    destruct Hv as [Hv|[Hv|[(q & Hv & _)|[Hv|[Hv|Hv]]]]]; done.
  - destruct items; split; intros Hv; try done.
    + do 4 right; by left.
    + destruct Hv as [Hv|[Hv|[(q & Hv & _)|[Hv|[Hv|Hv]]]]]; done.
  - destruct members; split; intros Hv; try done.
    + do 5 right; done.
    + destruct Hv as [Hv|[Hv|[(q & Hv & _)|[Hv|[Hv|Hv]]]]]; done.
Qed.

Lemma get_of_untabled (other : toml) (key : string) :
  (forall members, other <> TTable members) ->
  get_of other key
  = Raise (AttributeError ("'" +:+ type_name other +:+ "' object has no attribute 'get'")).
Proof. intros Hno. destruct other; try reflexivity. by destruct (Hno members). Qed.

(** A required setting of a table: what [if not v: raise ValueError(msg)]
    and [return v] make of the lookup. *)
Lemma required_raises (o : option toml) (msg : string) (e : exn) :
  match o with
  | Some v => if negb (truthy v) then Raise (ValueError msg) else Return v
  | None => Raise (ValueError msg)
  end = Raise e
  <-> e = ValueError msg
      /\ (o = None \/ exists v, o = Some v /\ truthy v = false).
Proof.
  destruct o as [v|]; [destruct (truthy v) eqn:Hv|]; simpl; split.
  - done.
  - intros [_ [Ho|(v' & Ho & Hf)]]; [done|]. congruence.
  - intros [= <-]. eauto.
  - by intros [-> _].
  - intros [= <-]. eauto.
  - by intros [-> _].
Qed.

Lemma required_returns (o : option toml) (msg : string) (v : toml) :
  match o with
  | Some v => if negb (truthy v) then Raise (ValueError msg) else Return v
  | None => Raise (ValueError msg)
  end = Return v
  <-> o = Some v /\ truthy v = true.
Proof.
  destruct o as [v'|]; [destruct (truthy v') eqn:Hv|]; simpl; split.
  - by intros [= <-].
  - by intros [[= <-] _].
  - done.
  - intros [[= <-] Ht]. congruence.
  - done.
  - by intros [? _].
Qed.

(** On settings of the declared types the accessors of the dict are
    those of the typed view. *)
Lemma typed_view_accessors (data : list (string * toml)) (c : Config) :
  typed_view data c ->
  grok_api_url data
  = match ConfigResolver.grok_api_url c with
    | Return u => Return (TString u)
    | Raise e => Raise e
    end
  /\ grok_api_key data
     = match ConfigResolver.grok_api_key c with
       | Return k => Return (TString k)
       | Raise e => Raise e
       end
  /\ log_level data = Return (TString (ConfigResolver.log_level c))
  /\ log_dir data = Return (TString (ConfigResolver.log_dir c))
  /\ debug_enabled data = Return (TBoolean (ConfigResolver.debug_enabled c)).
Proof.
  intros [Hs Hb].
  unfold grok_api_url, grok_api_key, log_level, log_dir, debug_enabled,
    ConfigResolver.grok_api_url, ConfigResolver.grok_api_key, ConfigResolver.log_level,
    ConfigResolver.log_dir, ConfigResolver.debug_enabled.
  rewrite Hb, !Hs by set_solver. simpl.
  repeat split.
  - by destruct (ConfigResolver.get_str c "grok" "api_url") as [[|]|].
  - by destruct (ConfigResolver.get_str c "grok" "api_key") as [[|]|].
  - by destruct (ConfigResolver.get_str c "logging" "level").
  - by destruct (ConfigResolver.get_str c "logging" "dir").
  - by destruct (ConfigResolver.get_bool c "debug" "enabled").
Qed.

End RawConfigFacts.

(** ** The tool surface and the configuration *)

Section ResolveFacts.
Context `{!JsonCodec} `{!PromptTemplates}.
Import ConfigResolver.


(** The first accessor that raises decides what the [try] block raises. *)
Lemma resolve_raises (c : Config) (m : ModelStore) (e : exn) :
  (grok_api_url c = Raise e
   \/ exists a, grok_api_url c = Return a /\ grok_api_key c = Raise e) ->
  Server.resolve c m = Raise e.
Proof.
  unfold Server.resolve. intros [Hu|(a & Hu & Hk)]; rewrite Hu; simpl; [done|].
  by rewrite Hk.
Qed.

Lemma on_config_error_requests (error_msg : string) (ctx : bool) (w : World) :
  requests (Server.on_config_error error_msg ctx w).2 = requests w.
Proof.
  unfold Server.on_config_error, Effects.report_progress.
  destruct ctx; [|done]. by destruct (progress_reply w error_msg).
Qed.

Lemma on_config_error_returns (error_msg : string) (ctx : bool) (w : World) :
  ctx = false \/ progress_reply w error_msg = Return () ->
  (Server.on_config_error error_msg ctx w).1
  = Return ("Configuration error: " +:+ error_msg).
Proof.
  unfold Server.on_config_error, Effects.report_progress.
  intros [->|Hp]; [done|]. destruct ctx; [|done]. by rewrite Hp.
Qed.

Lemma web_search_with_config_error (search : SearchFn) (c : Config) (m : ModelStore)
    (query platform : string) (min_results max_results : Z) (ctx : bool) (w : World)
    (msg : string) :
  Server.resolve c m = Raise (ValueError msg) ->
  Server.web_search_with search c m query platform min_results max_results ctx w
  = Server.on_config_error msg ctx w.
Proof.
  intros Hr. unfold Server.web_search_with, Server.web_search_start. rewrite Hr.
  by destruct (Server.on_config_error msg ctx w).
Qed.

Lemma web_fetch_with_config_error (fetch : FetchFn) (c : Config) (m : ModelStore)
    (u : string) (ctx : bool) (w : World) (msg : string) :
  Server.resolve c m = Raise (ValueError msg) ->
  Server.web_fetch_with fetch c m u ctx w = Server.on_config_error msg ctx w.
Proof.
  intros Hr. unfold Server.web_fetch_with, Server.web_fetch_start. rewrite Hr.
  by destruct (Server.on_config_error msg ctx w).
Qed.

(** C6, as the code has it. With the [grok] table absent or a table,
    reading [grok_api_url] or [grok_api_key] raises exactly when the
    setting is absent or falsy (the empty string, but also 0, 0.0, false,
    an empty array and an empty table), and what it raises is the
    [ValueError] that stands for a missing setting; any other value is
    returned as it is. With a [grok] that is no table the reading raises
    [AttributeError]. A lookup sees the first binding of a key. On
    settings of the declared types these are the accessors of the typed
    configuration. Constructing the configuration does not look at
    these settings, so it does not fail on them at startup. When an
    accessor raises the [ValueError], [web_search] and [web_fetch],
    whatever their provider, return "Configuration error: " followed by
    its message and issue no request, provided the call has no context
    or the context takes the message as progress. *)
Theorem missing_setting_reported_per_call (data : list (string * toml)) :
  (forall members : list (string * toml),
     default (TTable []) (RawConfig.lookup "grok" data) = TTable members ->
     (forall e : exn,
        RawConfig.grok_api_url data = Raise e
        <-> e = ValueError "grok.api_url not configured"
            /\ (RawConfig.lookup "api_url" members = None
                \/ exists v, RawConfig.lookup "api_url" members = Some v
                             /\ RawConfig.truthy v = false))
     /\ (forall v : toml,
           RawConfig.grok_api_url data = Return v
           <-> RawConfig.lookup "api_url" members = Some v /\ RawConfig.truthy v = true)
     /\ (forall e : exn,
           RawConfig.grok_api_key data = Raise e
           <-> e = ValueError "grok.api_key not configured"
               /\ (RawConfig.lookup "api_key" members = None
                   \/ exists v, RawConfig.lookup "api_key" members = Some v
                                /\ RawConfig.truthy v = false))
     /\ (forall v : toml,
           RawConfig.grok_api_key data = Return v
           <-> RawConfig.lookup "api_key" members = Some v /\ RawConfig.truthy v = true))
  /\ (forall other : toml,
        RawConfig.lookup "grok" data = Some other ->
        (forall members, other <> TTable members) ->
        RawConfig.grok_api_url data
        = Raise (AttributeError
                   ("'" +:+ RawConfig.type_name other +:+ "' object has no attribute 'get'"))
        /\ RawConfig.grok_api_key data
           = Raise (AttributeError
                      ("'" +:+ RawConfig.type_name other +:+ "' object has no attribute 'get'")))
  /\ (forall v : toml,
        RawConfig.truthy v = false
        <-> v = TString EmptyString \/ v = TInteger 0
            \/ (exists q, v = TFloat q /\ (q == 0)%Q)
            \/ v = TBoolean false \/ v = TArray [] \/ v = TTable [])
  /\ (forall (key k : string) (v : toml) (rest : list (string * toml)),
        RawConfig.lookup key [] = None
        /\ RawConfig.lookup key ((key, v) :: rest) = Some v
        /\ (k <> key -> RawConfig.lookup key ((k, v) :: rest) = RawConfig.lookup key rest))
  /\ (forall c : Config,
        RawConfig.typed_view data c ->
        RawConfig.grok_api_url data
        = match grok_api_url c with Return u => Return (TString u) | Raise e => Raise e end
        /\ RawConfig.grok_api_key data
           = match grok_api_key c with Return k => Return (TString k) | Raise e => Raise e end)
  /\ (forall (fs : FileSystem) (d : ConfigData),
        config_toml fs = Some (Document d) -> Config_new fs = Return {| _config_data := d |})
  /\ (forall (search : SearchFn) (fetch : FetchFn) (c : Config) (m : ModelStore)
             (query platform u : string) (min_results max_results : Z)
             (ctx : bool) (w : World) (msg : string),
        (grok_api_url c = Raise (ValueError msg)
         \/ exists a, grok_api_url c = Return a /\ grok_api_key c = Raise (ValueError msg)) ->
        ctx = false \/ progress_reply w msg = Return () ->
        (Server.web_search_with search c m query platform min_results max_results ctx w).1
        = Return ("Configuration error: " +:+ msg)
        /\ requests
             (Server.web_search_with search c m query platform min_results max_results
                ctx w).2
           = requests w
        /\ (Server.web_fetch_with fetch c m u ctx w).1
           = Return ("Configuration error: " +:+ msg)
        /\ requests (Server.web_fetch_with fetch c m u ctx w).2 = requests w).
Proof.
  split; [|split; [|split; [|split; [|split; [|split]]]]].
  - intros members Hg.
    unfold RawConfig.grok_api_url, RawConfig.grok_api_key, RawConfig.setting.
    rewrite Hg. simpl.
    split; [|split; [|split]]; intros x;
      first [apply required_raises | apply required_returns].
  - intros other Hg Hno.
    unfold RawConfig.grok_api_url, RawConfig.grok_api_key, RawConfig.setting.
    rewrite Hg. simpl. by rewrite !get_of_untabled.
  - apply truthy_false_iff.
  - intros key k v rest. simpl. rewrite String.eqb_refl.
    split; [done|]. split; [done|]. intros Hne.
    by apply String.eqb_neq in Hne as ->.
  - intros c Hv. destruct (typed_view_accessors data c Hv) as (Hu & Hk & _). done.
  - intros fs d Hfs. unfold Config_new, _load_config. by rewrite Hfs.
  - intros search fetch c m query platform u mn mx ctx w msg Hmiss Hctx.
    pose proof (resolve_raises c m (ValueError msg) Hmiss) as Hr.
    rewrite (web_search_with_config_error search c m query platform mn mx ctx w msg Hr).
    rewrite (web_fetch_with_config_error fetch c m u ctx w msg Hr).
    rewrite on_config_error_requests.
    by rewrite (on_config_error_returns msg ctx w Hctx).
Qed.

End ResolveFacts.

(** ** Process start *)

Section StartupFacts.
Context `{!LoggingModule}.
Import ConfigResolver.

Ltac level_case name :=
  match goal with
  | |- context [String.eqb name ?s] => destruct (String.eqb_spec name s) as [->|?]
  end.

Lemma level_constant_spec (name : string) (z : Z) :
  Logger.level_constant name = Some z
  <-> In (name, z)
        [("CRITICAL", 50%Z); ("FATAL", 50%Z); ("ERROR", 40%Z); ("WARNING", 30%Z);
         ("WARN", 30%Z); ("INFO", 20%Z); ("DEBUG", 10%Z); ("NOTSET", 0%Z)].
Proof.
  split.
  - unfold Logger.level_constant.
    repeat (level_case name; [simpl; intros [= <-]; tauto|]). done.
  - simpl. intros Hin.
    repeat (destruct Hin as [[= <- <-]|Hin]; [reflexivity|]). done.
Qed.

Lemma level_constant_none (name : string) :
  Logger.level_constant name = None
  <-> ~ In name ["CRITICAL"; "FATAL"; "ERROR"; "WARNING"; "WARN"; "INFO"; "DEBUG"; "NOTSET"].
Proof.
  unfold Logger.level_constant.
  repeat (level_case name; [simpl; split; [done | tauto]|]).
  split; [|done]. intros _ Hin. simpl in Hin.
  repeat (destruct Hin as [Hin|Hin]; [congruence|]). done.
Qed.

(** What [setLevel(getattr(logging, name))] does, case by case. *)
Lemma set_level_cases (name : string) :
  (exists z, Logger.level_constant name = Some z
             /\ Logger.logging_getattr name ≫= Logger.setLevel = Return z)
  \/ (Logger.level_constant name = None
      /\ ((name <> EmptyString /\ exists z, attribute name = Some (Level z)
           /\ Logger.logging_getattr name ≫= Logger.setLevel = Return z)
          \/ (name <> EmptyString /\ exists e, attribute name = Some (Unfit e)
              /\ Logger.logging_getattr name ≫= Logger.setLevel = Raise e)
          \/ ((name = EmptyString \/ attribute name = None)
              /\ Logger.logging_getattr name ≫= Logger.setLevel
                 = Raise (AttributeError
                            ("module 'logging' has no attribute '" +:+ name +:+ "'"))))).
Proof.
  unfold Logger.logging_getattr.
  destruct (Logger.level_constant name) as [z|] eqn:Hc; [left; eauto|].
  right. split; [done|].
  destruct name as [|a name]; simpl; [right; right; eauto|].
  destruct (attribute (String a name)) as [[z|e]|] eqn:Ha; simpl.
  - left. split; [done|]. eauto.
  - right; left. split; [done|]. eauto.
  - right; right. eauto.
Qed.

Lemma logger_setup_cases (c : Config) (fs : FileSystem) :
  Logger.logger_setup c fs
  = if negb (can_mkdir fs (log_dir c)) then Raise (mkdir_error fs (log_dir c))
    else match Logger.logging_getattr (log_level c) ≫= Logger.setLevel with
         | Raise e => Raise e
         | Return z =>
             if negb (can_open_log fs (log_dir c)) then
               Raise (open_log_error fs (log_dir c))
             else Return z
         end.
Proof.
  unfold Logger.logger_setup.
  destruct (can_mkdir fs (log_dir c)); simpl; [|done].
  destruct (Logger.logging_getattr (log_level c) ≫= Logger.setLevel) as [z|e] eqn:Hl;
    simpl; [|done].
  destruct (can_open_log fs (log_dir c)); simpl; [|done]. done.
Qed.

Lemma logger_setup_returns_iff (c : Config) (fs : FileSystem) :
  returns (Logger.logger_setup c fs)
  <-> can_mkdir fs (log_dir c) = true
      /\ returns (Logger.logging_getattr (log_level c) ≫= Logger.setLevel)
      /\ can_open_log fs (log_dir c) = true.
Proof.
  rewrite logger_setup_cases. unfold returns.
  destruct (can_mkdir fs (log_dir c)); simpl.
  - destruct (Logger.logging_getattr (log_level c) ≫= Logger.setLevel) as [lv|e]; simpl.
    + destruct (can_open_log fs (log_dir c)); simpl; split.
      * intros _. eauto.
      * intros _. eauto.
      * intros [x Hx]. done.
      * intros (_ & _ & Hf). done.
    + split; [intros [x Hx]; done | intros (_ & [x Hx] & _); done].
  - split; [intros [x Hx]; done | intros (Hf & _); done].
Qed.

Lemma startup_document (fs : FileSystem) (d : ConfigData) :
  config_toml fs = Some (Document d) ->
  startup fs
  = match Logger.logger_setup {| _config_data := d |} fs with
    | Return _ => Return {| _config_data := d |}
    | Raise e => Raise e
    end.
Proof.
  intros Hd. unfold startup, Config_new, _load_config. rewrite Hd. simpl.
  by destruct (Logger.logger_setup {| _config_data := d |} fs).
Qed.

(** C9, as the code has it. When the configuration file is absent,
    constructing the [Config] singleton raises [FileNotFoundError] and
    process start aborts. That is not the only fatal condition: a file
    that cannot be read or parsed aborts the construction as well, and
    with a document in place (its settings of the declared types)
    process start succeeds exactly when the log directory can be made,
    the logger can be set to [logging.level] and the log file can be
    opened. The logger can be set to a name exactly when the name is one
    of the eight level constants of the logging module or another
    attribute of it that is an integer. A directory that cannot be made
    aborts the start with what [mkdir] raises; with the directory in
    place, a name the module does not have aborts it with
    [AttributeError], an attribute that [setLevel] rejects with the
    exception [setLevel] raises, and a log file that cannot be opened
    with what the file handler raises. *)
Theorem startup_fatal_conditions (fs : FileSystem) :
  (config_toml fs = None ->
     Config_new fs
     = Raise (FileNotFoundError ("Configuration file not found: " +:+ config_path fs))
     /\ startup fs
        = Raise (FileNotFoundError ("Configuration file not found: " +:+ config_path fs)))
  /\ (forall e : exn,
        config_toml fs = Some (Unreadable e) ->
        Config_new fs = Raise e /\ startup fs = Raise e)
  /\ (forall d : ConfigData,
        config_toml fs = Some (Document d) ->
        Config_new fs = Return {| _config_data := d |}
        /\ (returns (startup fs)
            <-> can_mkdir fs (log_dir {| _config_data := d |}) = true
                /\ (exists z : Z,
                      Logger.logging_getattr (log_level {| _config_data := d |})
                        ≫= Logger.setLevel = Return z)
                /\ can_open_log fs (log_dir {| _config_data := d |}) = true)
        /\ (can_mkdir fs (log_dir {| _config_data := d |}) = false ->
            startup fs = Raise (mkdir_error fs (log_dir {| _config_data := d |})))
        /\ (can_mkdir fs (log_dir {| _config_data := d |}) = true ->
            (exists z : Z,
               Logger.logging_getattr (log_level {| _config_data := d |})
                 ≫= Logger.setLevel = Return z) ->
            can_open_log fs (log_dir {| _config_data := d |}) = false ->
            startup fs = Raise (open_log_error fs (log_dir {| _config_data := d |})))
        /\ (can_mkdir fs (log_dir {| _config_data := d |}) = true ->
            ~ In (log_level {| _config_data := d |})
                ["CRITICAL"; "FATAL"; "ERROR"; "WARNING"; "WARN"; "INFO"; "DEBUG";
                 "NOTSET"] ->
            (log_level {| _config_data := d |} = EmptyString
             \/ attribute (log_level {| _config_data := d |}) = None ->
             startup fs
             = Raise (AttributeError
                        ("module 'logging' has no attribute '"
                         +:+ log_level {| _config_data := d |} +:+ "'")))
            /\ (forall e : exn,
                  log_level {| _config_data := d |} <> EmptyString ->
                  attribute (log_level {| _config_data := d |}) = Some (Unfit e) ->
                  startup fs = Raise e)))
  /\ (forall (name : string) (z : Z),
        Logger.logging_getattr name ≫= Logger.setLevel = Return z
        <-> In (name, z)
              [("CRITICAL", 50%Z); ("FATAL", 50%Z); ("ERROR", 40%Z); ("WARNING", 30%Z);
               ("WARN", 30%Z); ("INFO", 20%Z); ("DEBUG", 10%Z); ("NOTSET", 0%Z)]
            \/ (~ In name ["CRITICAL"; "FATAL"; "ERROR"; "WARNING"; "WARN"; "INFO";
                           "DEBUG"; "NOTSET"]
                /\ name <> EmptyString /\ attribute name = Some (Level z))).
Proof.
  split; [|split; [|split]].
  - unfold startup, Config_new, _load_config. intros ->. done.
  - unfold startup, Config_new, _load_config. intros e ->. done.
  - intros d Hd. split; [unfold Config_new, _load_config; by rewrite Hd|].
    rewrite (startup_document fs d Hd).
    split; [|split; [|split; [|intros Hm Hno; split]]].
    + rewrite <- logger_setup_returns_iff. unfold returns.
      destruct (Logger.logger_setup {| _config_data := d |} fs) as [lv|e]; simpl.
      * split; eauto.
      * split; intros [x Hx]; done.
    + intros Hm. rewrite logger_setup_cases, Hm. simpl. done.
    + intros Hm [z Hz] Hop. rewrite logger_setup_cases, Hm, Hz, Hop. simpl. done.
    + intros Hnone. rewrite logger_setup_cases, Hm. simpl.
      apply level_constant_none in Hno.
      destruct (set_level_cases (log_level {| _config_data := d |}))
        as [(z & Hc & _)|[_ [(Hne & z & Ha & _)|[(Hne & e & Ha & _)|[_ ->]]]]];
        [congruence| | |done].
      * destruct Hnone as [Hn|Hn]; [done|congruence].
      * destruct Hnone as [Hn|Hn]; [done|congruence].
    + intros e Hne Ha. rewrite logger_setup_cases, Hm. simpl.
      apply level_constant_none in Hno.
      destruct (set_level_cases (log_level {| _config_data := d |}))
        as [(z & Hc & _)|[_ [(_ & z & Ha' & _)|[(_ & e' & Ha' & ->)|[[Hn|Hn] _]]]]];
        try congruence.
  - intros name z.
    destruct (set_level_cases name)
      as [(z' & Hc & ->)|[Hc [(Hne & z' & Ha & ->)|[(Hne & e & Ha & ->)|[Hn ->]]]]].
    + split.
      * intros [= <-]. left. by apply level_constant_spec.
      * intros [Hin|(Hno & _)].
        -- apply level_constant_spec in Hin. congruence.
        -- apply level_constant_none in Hno. congruence.
    + split.
      * intros [= <-]. right. split; [by apply level_constant_none|done].
      * intros [Hin|(_ & _ & Hz)]; [|congruence].
        apply level_constant_spec in Hin. congruence.
    + split; [done|].
      intros [Hin|(_ & _ & Hz)]; [|congruence].
      apply level_constant_spec in Hin. congruence.
    + split; [done|].
      intros [Hin|(_ & Hne & Hz)].
      * apply level_constant_spec in Hin. congruence.
      * destruct Hn; congruence.
Qed.

End StartupFacts.

(** C9, as stated, fails: with the configuration file present and well
    formed, a log level that the logging module does not have aborts
    process start. *)
Lemma absent_file_not_the_only_fatal_condition :
  @startup Sample.logging (Sample.disk (Some (Document (_config_data Sample.verbose))))
  = Raise (AttributeError "module 'logging' has no attribute 'VERBOSE'")
  /\ ~ (forall fs : FileSystem,
          (exists e, @startup Sample.logging fs = Raise e) -> config_toml fs = None).
Proof.
  assert (Hrun : @startup Sample.logging
                   (Sample.disk (Some (Document (_config_data Sample.verbose))))
                 = Raise (AttributeError "module 'logging' has no attribute 'VERBOSE'"))
    by (vm_compute; reflexivity).
  split; [exact Hrun|].
  intros Hclaim.
  specialize (Hclaim (Sample.disk (Some (Document (_config_data Sample.verbose))))
                (ex_intro _ _ Hrun)).
  discriminate Hclaim.
Qed.

(** ** What the tools return and what they let through *)

Section ToolFacts.
Context `{!JsonCodec} `{!PromptTemplates} `{!FloatArith}.
Import ConfigResolver.

Lemma obj_get_obj_set (key : string) (v : json) (members : list (string * json)) :
  Json.obj_get key (Json.obj_set key v members) = Some v.
Proof.
  induction members as [|[k old] rest IH]; simpl.
  - by rewrite String.eqb_refl.
  - destruct (String.eqb k key) eqn:E; simpl; rewrite E; [done | exact IH].
Qed.

Lemma obj_get_obj_set_ne (key key' : string) (v : json) (members : list (string * json)) :
  key <> key' ->
  Json.obj_get key' (Json.obj_set key v members) = Json.obj_get key' members.
Proof.
  intros Hne. induction members as [|[k old] rest IH]; simpl.
  - destruct (String.eqb key key') eqn:E; [|done].
    apply String.eqb_eq in E. contradiction.
  - destruct (String.eqb k key) eqn:E; simpl.
    + apply String.eqb_eq in E. subst k.
      destruct (String.eqb key key') eqn:E'; [|done].
      apply String.eqb_eq in E'. contradiction.
    + by rewrite IH.
Qed.





(** C5. A URL that starts with neither "http://" nor "https://" makes
    [fetch] fail with [InvalidInputError] and leaves the world as it was:
    no request is issued, by the provider or by [web_fetch] around it. *)
Theorem fetch_rejects_other_schemes (p : GrokSearchProvider) (u : string)
    (ctx : bool) (w : World) :
  String.prefix "http://" u = false ->
  String.prefix "https://" u = false ->
  Provider.fetch_document p u w
  = (Failure (InvalidInputError ("URL must start with http:// or https://: " +:+ u)), w)
  /\ Provider.fetch p u ctx w
     = ("InvalidInputError: URL must start with http:// or https://: " +:+ u, w)
  /\ forall (c : Config) (m : ModelStore),
       requests (Server.web_fetch c m u ctx w).2 = requests w.
Proof.
  intros Hp1 Hp2.
  assert (Hdoc : Provider.fetch_document p u w
    = (Failure (InvalidInputError ("URL must start with http:// or https://: " +:+ u)), w)).
  { unfold Provider.fetch_document, Provider.valid_url, Str.startswith.
    by rewrite Hp1, Hp2. }
  split; [exact Hdoc|]. split.
  - unfold Provider.fetch. by rewrite Hdoc.
  - intros c m. unfold Server.web_fetch, Server.web_fetch_with, Server.web_fetch_start.
    destruct (Server.resolve c m) as [[[a k] mo]|e].
    + unfold Server.web_fetch_resume_with, Server.provider_fetch, Provider.fetch,
        Provider.fetch_document, Provider.valid_url, Str.startswith; simpl.
      rewrite Hp1, Hp2; simpl. by rewrite !log_info_requests.
    + destruct e as [msg| | | | | | |]; simpl; try done.
      pose proof (on_config_error_requests msg ctx w) as Hq.
      by destruct (Server.on_config_error msg ctx w).
Qed.

End ToolFacts.

(** ** Requests of the provider, and the binding of the model *)

Section ModelFacts.
Context `{!JsonCodec} `{!PromptTemplates}.


Lemma chat_request_model (p : GrokSearchProvider) (system user : string) :
  Server.request_model (Provider.chat_request p system user) = Some (JString (model p)).
Proof. reflexivity. Qed.









End ModelFacts.

(** ** The connection test of [get_config_info] *)

Section DiagnosticsFacts.
Context `{!JsonCodec} `{!FloatArith}.
Import ConfigResolver.

Lemma round_half_even_nonneg (x : Q) : (0 <= x)%Q -> (0 <= Server.round_half_even x)%Z.
Proof.
  intros Hx. unfold Server.round_half_even.
  assert (Hf : (0 <= Qfloor x)%Z).
  { change 0%Z with (Qfloor 0). by apply Qfloor_resp_le. }
  destruct (x - inject_Z (Qfloor x) ?= 1 # 2)%Q; [destruct (Z.even _)| |]; lia.
Qed.

Lemma round2_nonneg (x : Q) : (0 <= x)%Q -> (0 <= Server.round2 x)%Q.
Proof.
  intros Hx. unfold Server.round2.
  assert (Hr : (0 <= Server.round_half_even (x * 100))%Z).
  { apply round_half_even_nonneg. apply Qmult_le_0_compat; [exact Hx | done]. }
  unfold Qle; simpl. lia.
Qed.

(** The exact arithmetic keeps signs as every float arithmetic does. *)
Lemma exact_signs : @FloatSigns Server.exact.
Proof.
  split; simpl.
  - intros a b Hab. by apply (proj1 (Qle_minus_iff b a)).
  - intros a Ha. by apply Qmult_le_0_compat.
  - apply round2_nonneg.
Qed.

Lemma model_ids_strings (data : list json) (ids : list string) :
  Forall2 (fun entry id => Json.field "id" entry = Some (JString id)) data ids ->
  Server.model_ids data = JString <$> ids.
Proof.
  unfold Server.model_ids.
  induction 1 as [|entry id data ids Hid _ IH]; simpl; [done|].
  rewrite Hid. f_equal. exact IH.
Qed.

(** C8, as the code has it. When both settings are present, the models
    endpoint answers 200 and the body decodes to an object whose [data] is
    an array of objects with the string ids [ids], the report's
    [connection_test] says the connection succeeded, its message ends
    with the number of entries ("total 0 models" when there is none), and
    it lists exactly [ids] under [available_models] when there is at
    least one; with no entry the key is left out. None of this depends
    on the clock. Its [response_time_ms] is the float the arithmetic
    makes of the two readings, and it is not negative when the second
    reading is not before the first. *)
Theorem get_config_info_lists_models (c : Config) (config_info : list (string * json))
    (t0 t1 : Q) (w : World) (u k body : string) (members : list (string * json))
    (data : list json) (ids : list string) :
  grok_api_url c = Return u ->
  grok_api_key c = Return k ->
  upstream w (requests w) (Server.models_request u k)
  = Return {| status_code := 200; text := body |} ->
  loads body = Some (JObject members) ->
  Json.obj_get "data" members = Some (JArray data) ->
  Forall2 (fun entry id => Json.field "id" entry = Some (JString id)) data ids ->
  exists test_result,
    Json.obj_get "connection_test" (Server.get_config_info_dict c config_info t0 t1 w).1
    = Some (JObject test_result)
    /\ Json.obj_get "status" test_result = Some (JString "✅ Connection successful")
    /\ Json.obj_get "message" test_result
       = Some (JString ("Successfully retrieved model list (HTTP 200), total "
                        +:+ NilEmpty.string_of_uint (Nat.to_uint (length ids))
                        +:+ " models"))
    /\ Json.obj_get "available_models" test_result
       = match ids with
         | [] => None
         | _ :: _ => Some (JArray (JString <$> ids))
         end
    /\ Json.obj_get "response_time_ms" test_result
       = Some (JFloat (fl_round2 (fl_mul (fl_sub t1 t0) (inject_Z 1000))))
    /\ (FloatSigns -> (t0 <= t1)%Q ->
        (0 <= fl_round2 (fl_mul (fl_sub t1 t0) (inject_Z 1000)))%Q)
    /\ (Server.get_config_info c config_info t0 t1 w).1
       = Return (dumps (JObject (Server.get_config_info_dict c config_info t0 t1 w).1)).
Proof.
  intros Hu Hk Hup Hbody Hdata Hids.
  unfold Server.get_config_info, Server.get_config_info_dict, Server.connection_test.
  rewrite Hu, Hk. unfold Effects.send. rewrite Hup. simpl.
  unfold Server.add_models. rewrite Hbody, Hdata.
  rewrite (model_ids_strings data ids Hids).
  rewrite (Forall2_length _ _ _ Hids).
  eexists. split; [apply obj_get_obj_set|].
  assert (Hsign : FloatSigns -> (t0 <= t1)%Q ->
                  (0 <= fl_round2 (fl_mul (fl_sub t1 t0) (inject_Z 1000)))%Q).
  { intros Hs Ht. by apply fl_round2_nonneg, fl_mul_nonneg, fl_sub_nonneg. }
  destruct ids as [|id ids]; simpl; repeat split; try reflexivity; exact Hsign.
Qed.

End DiagnosticsFacts.

(** C8, as stated, fails in two ways. An endpoint that answers 200 with an
    empty [data] array gets a report with no [available_models]; and when
    the clock steps back between the two readings, [response_time_ms] is
    negative. *)
Lemma empty_listing_reports_no_models :
  (exists test_result,
     Json.obj_get "connection_test"
       (@Server.get_config_info_dict RefCodec.codec Server.exact Sample.complete [] 0 0
          (Sample.world (Sample.ok (Sample.models_body [])))).1
     = Some (JObject test_result)
     /\ Json.obj_get "status" test_result = Some (JString "✅ Connection successful")
     /\ Json.obj_get "message" test_result
        = Some (JString "Successfully retrieved model list (HTTP 200), total 0 models")
     /\ Json.obj_get "available_models" test_result = None)
  /\ (exists test_result q,
        Json.obj_get "connection_test"
          (@Server.get_config_info_dict RefCodec.codec Server.exact Sample.complete [] 2 1
             (Sample.world (Sample.ok (Sample.models_body [Sample.model_entry "grok-4-fast"])))).1
        = Some (JObject test_result)
        /\ Json.obj_get "available_models" test_result
           = Some (JArray [JString "grok-4-fast"])
        /\ Json.obj_get "response_time_ms" test_result = Some (JFloat q)
        /\ (q < 0)%Q).
Proof.
  split.
  - eexists. split; [vm_compute; reflexivity|]. repeat split; reflexivity.
  - eexists _, _. split; [vm_compute; reflexivity|]. repeat split; try reflexivity.
Qed.

(** ** Decoding and reconciling the results of a search *)

Section StripFacts.

Lemma app_String (a : ascii) (s t : string) : String a s +:+ t = String a (s +:+ t).
Proof. reflexivity. Qed.

Lemma from_first_open_skips (pre rest : string) :
  Str.mem "[" pre = false ->
  Provider.from_first_open (pre +:+ String "[" rest) = String "[" rest.
Proof.
  induction pre as [|a pre IH]; simpl; [done|].
  intros Hm. apply orb_false_elim in Hm as [Ha Hm].
  rewrite Ha. by apply IH.
Qed.

Lemma upto_last_close_none (post : string) :
  Str.mem "]" post = false -> Provider.upto_last_close post = EmptyString.
Proof.
  induction post as [|a post IH]; simpl; [done|].
  intros Hm. apply orb_false_elim in Hm as [Ha Hm].
  by rewrite (IH Hm), Ha.
Qed.

Lemma upto_last_close_keeps (body post : string) :
  Str.mem "]" post = false ->
  Provider.upto_last_close (body +:+ String "]" post) = body +:+ String "]" EmptyString.
Proof.
  intros Hm. induction body as [|a body IH].
  - simpl. by rewrite (upto_last_close_none post Hm).
  - rewrite !app_String. simpl. rewrite IH.
    destruct body; reflexivity.
Qed.

Lemma app_assoc_string (s t r : string) : (s +:+ t) +:+ r = s +:+ (t +:+ r).
Proof. induction s as [|a s IH]; [done | rewrite !app_String; by f_equal]. Qed.

Lemma app_empty_r (s : string) : s +:+ EmptyString = s.
Proof. induction s as [|a s IH]; [done | rewrite !app_String; by f_equal]. Qed.

(** The cleanup recovers an array text from the prose or fence around
    it, when what stands before has no opening bracket and what stands
    after has no closing bracket. *)
Lemma strip_wrapping_unwraps (pre mid post : string) :
  Str.mem "[" pre = false ->
  Str.mem "]" post = false ->
  Provider.strip_wrapping (pre +:+ ("[" +:+ mid +:+ "]") +:+ post)
  = "[" +:+ mid +:+ "]".
Proof.
  intros Hpre Hpost. unfold Provider.strip_wrapping.
  change (pre +:+ ("[" +:+ mid +:+ "]") +:+ post)
    with (pre +:+ String "[" ((mid +:+ "]") +:+ post)).
  rewrite (from_first_open_skips pre _ Hpre).
  rewrite (app_assoc_string mid "]" post).
  change (String "[" (mid +:+ "]" +:+ post))
    with (String "[" mid +:+ String "]" post).
  by rewrite (upto_last_close_keeps _ post Hpost).
Qed.

Lemma strip_wrapping_array (mid : string) :
  Provider.strip_wrapping ("[" +:+ mid +:+ "]") = "[" +:+ mid +:+ "]".
Proof.
  rewrite <- (app_empty_r ("[" +:+ mid +:+ "]")) at 1.
  exact (strip_wrapping_unwraps EmptyString mid EmptyString eq_refl eq_refl).
Qed.

Lemma strip_wrapping_code_fenced (mid : string) :
  Provider.strip_wrapping (Provider.code_fenced ("[" +:+ mid +:+ "]"))
  = "[" +:+ mid +:+ "]".
Proof.
  exact (strip_wrapping_unwraps ("```json" +:+ Str.nl) mid (Str.nl +:+ "```")
           eq_refl eq_refl).
Qed.

End StripFacts.

Section ProviderFacts.
Context `{!JsonCodec} `{!PromptTemplates}.

Lemma chat_answer (p : GrokSearchProvider) (system user body content : string)
    (w : World) :
  upstream w (requests w) (Provider.chat_request p system user)
  = Return {| status_code := 200; text := body |} ->
  Provider.extract_content body = Some content ->
  Provider.chat p system user w
  = (Answer content, (Effects.send (Provider.chat_request p system user) w).2).
Proof.
  intros Hup Hc. unfold Provider.chat, Effects.send. rewrite Hup. simpl.
  by rewrite Hc.
Qed.

Lemma validate_search_ok (query : string) (min_results max_results : Z) :
  query <> EmptyString -> (0 <= min_results <= max_results)%Z ->
  Provider.validate_search query min_results max_results = None.
Proof.
  intros Hq [Hmin Hmax]. unfold Provider.validate_search.
  destruct query; [done|]. simpl.
  destruct (Z.ltb_spec min_results 0); [lia|].
  destruct (Z.ltb_spec max_results min_results); [lia|]. done.
Qed.

Lemma omap_Forall2 {A B : Type} (f : A -> option B) (l : list A) (rs : list B) :
  Forall2 (fun e r => f e = Some r) l rs -> omap f l = rs.
Proof.
  induction 1 as [|e r l rs He _ IH]; simpl; [done|].
  rewrite He. f_equal. exact IH.
Qed.

Lemma omap_Forall {A B : Type} (f : A -> option B) (P : B -> Prop) (l : list A) :
  (forall e r, f e = Some r -> P r) -> Forall P (omap f l).
Proof.
  intros Hf. induction l as [|e l IH]; simpl; [constructor|].
  destruct (f e) as [r|] eqn:E; [constructor; eauto | exact IH].
Qed.

Lemma to_search_result_nonempty (e : json) (r : SearchResult) :
  Provider.to_search_result e = Some r ->
  title r <> EmptyString /\ url r <> EmptyString.
Proof.
  unfold Provider.to_search_result.
  destruct (Json.str_field "title" e) as [t|]; [|done].
  destruct (Json.str_field "url" e) as [u|]; [|done].
  destruct t, u; simpl; try done. intros [= <-]. simpl. done.
Qed.

Lemma reconcile_valid (max_results : Z) (entries : list json) (results : list SearchResult) :
  Forall2 (fun e r => Provider.to_search_result e = Some r) entries results ->
  Provider.reconcile max_results entries = take (Z.to_nat max_results) results.
Proof.
  intros Hv. unfold Provider.reconcile. apply omap_Forall2.
  by apply Forall2_take.
Qed.

Lemma decode_array_some (content : string) (entries : list json) :
  Provider.decode_array content = Some entries <-> loads content = Some (JArray entries).
Proof.
  unfold Provider.decode_array.
  destruct (loads content) as [[| | | | |l|]|]; simpl; split; try done.
  - by intros [= ->].
  - by intros [= ->].
Qed.

Lemma decode_array_none (content : string) :
  Provider.decode_array content = None
  <-> forall entries, loads content <> Some (JArray entries).
Proof.
  unfold Provider.decode_array.
  destruct (loads content) as [[| | | | |l|]|]; simpl; split; try done.
  intros Hno. by destruct (Hno l).
Qed.

(** The two stages, on the decoder itself. *)
Lemma decode_entries_stages (content : string) (entries : list json) :
  loads content = Some (JArray entries)
  \/ ((forall l, loads content <> Some (JArray l))
      /\ loads (Provider.strip_wrapping content) = Some (JArray entries)) ->
  Provider.decode_entries content = Answer entries.
Proof.
  unfold Provider.decode_entries. intros [Hl|[Hno Hl]].
  - by rewrite (proj2 (decode_array_some _ _) Hl).
  - rewrite (proj2 (decode_array_none _) Hno).
    by rewrite (proj2 (decode_array_some _ _) Hl).
Qed.

(** A valid search that the endpoint answers is the rendering of what
    the assistant's text is read as, after one request. *)
Lemma search_answered (p : GrokSearchProvider) (query platform : string)
    (min_results max_results : Z) (ctx : bool) (w : World) (body content : string) :
  query <> EmptyString ->
  (0 <= min_results <= max_results)%Z ->
  upstream w (requests w)
    (Provider.chat_request p search_prompt
       (Provider.search_payload query platform min_results max_results))
  = Return {| status_code := 200; text := body |} ->
  Provider.extract_content body = Some content ->
  Provider.search p query platform min_results max_results ctx w
  = (Provider.render_search (Provider.interpret max_results content),
     (Effects.send (Provider.chat_request p search_prompt
        (Provider.search_payload query platform min_results max_results)) w).2).
Proof.
  intros Hq Hb Hup Hc. unfold Provider.search, Provider.search_items.
  by rewrite (validate_search_ok _ _ _ Hq Hb), (chat_answer _ _ _ _ _ _ Hup Hc).
Qed.

(** What an entry gives, on its fields. *)
Lemma to_search_result_some (e : json) (r : SearchResult) :
  Provider.to_search_result e = Some r ->
  Json.str_field "title" e = Some (title r) /\ title r <> EmptyString
  /\ Json.str_field "url" e = Some (url r) /\ url r <> EmptyString
  /\ snippet r
     = match Json.str_field "description" e with
       | Some s => s
       | None =>
           match Json.str_field "snippet" e with
           | Some s => s
           | None => EmptyString
           end
       end
  /\ source r = Json.str_field "source" e
  /\ published_date r = Json.str_field "published_date" e.
Proof.
  unfold Provider.to_search_result, Provider.entry_snippet.
  destruct (Json.str_field "title" e) as [t|]; [|done].
  destruct (Json.str_field "url" e) as [u|]; [|done].
  destruct t, u; simpl; try done. intros [= <-]. simpl.
  by destruct (Json.str_field "description" e), (Json.str_field "snippet" e).
Qed.

Lemma to_search_result_none (e : json) :
  Provider.to_search_result e = None
  <-> ~ exists t u, Json.str_field "title" e = Some t /\ t <> EmptyString
                    /\ Json.str_field "url" e = Some u /\ u <> EmptyString.
Proof.
  unfold Provider.to_search_result.
  destruct (Json.str_field "title" e) as [t|]; [destruct (Json.str_field "url" e) as [u|]|].
  - destruct t, u; simpl; split; try done.
    + intros _ (t' & u' & [= <-] & Ht & _). done.
    + intros _ (t' & u' & [= <-] & Ht & _). done.
    + intros _ (t' & u' & _ & _ & [= <-] & Hu). done.
    + intros Hno. destruct Hno. eexists _, _. repeat split; done.
  - split; [|done]. intros _ (t' & u' & _ & _ & [=] & _).
  - split; [|done]. intros _ (t' & u' & [=] & _).
Qed.

(** C1. When the request is valid, the endpoint answers 200 and the
    assistant's text decodes, strictly or after the cleanup, to a JSON
    array of [n] entries that each give a result, [search] returns the
    JSON array of the first [min n max_results] of them, in the order of
    the array: all of them when [n] does not exceed [max_results], also
    when [n] is below [min_results], after exactly one request. The
    element for an entry is the object with its [title], its [url] and
    its summary under [description], each a string, followed by its
    [source] and [published_date] when it has them. *)
Theorem search_truncates_in_order (p : GrokSearchProvider) (query platform : string)
    (min_results max_results : Z) (ctx : bool) (w : World) (body content : string)
    (entries : list json) (results : list SearchResult) :
  query <> EmptyString ->
  (0 <= min_results <= max_results)%Z ->
  upstream w (requests w)
    (Provider.chat_request p search_prompt
       (Provider.search_payload query platform min_results max_results))
  = Return {| status_code := 200; text := body |} ->
  Provider.extract_content body = Some content ->
  loads content = Some (JArray entries)
  \/ ((forall l, loads content <> Some (JArray l))
      /\ loads (Provider.strip_wrapping content) = Some (JArray entries)) ->
  Forall2 (fun e r => Provider.to_search_result e = Some r) entries results ->
  (Provider.search p query platform min_results max_results ctx w).1
  = dumps
      (JArray
         ((fun r : SearchResult =>
             JObject
               ([("title", JString (title r)); ("url", JString (url r));
                 ("description", JString (snippet r))]
                ++ match source r with
                   | Some s => [("source", JString s)]
                   | None => []
                   end
                ++ match published_date r with
                   | Some d => [("published_date", JString d)]
                   | None => []
                   end))
            <$> take (Z.to_nat max_results) results))
  /\ Forall2 (fun e r =>
                Json.str_field "title" e = Some (title r)
                /\ Json.str_field "url" e = Some (url r))
       entries results
  /\ length (take (Z.to_nat max_results) results)
     = Nat.min (length entries) (Z.to_nat max_results)
  /\ (length entries <= Z.to_nat max_results ->
      (Provider.search p query platform min_results max_results ctx w).1
      = dumps
          (JArray
             ((fun r : SearchResult =>
                 JObject
                   ([("title", JString (title r)); ("url", JString (url r));
                     ("description", JString (snippet r))]
                    ++ match source r with
                       | Some s => [("source", JString s)]
                       | None => []
                       end
                    ++ match published_date r with
                       | Some d => [("published_date", JString d)]
                       | None => []
                       end))
                <$> results)))
  /\ requests (Provider.search p query platform min_results max_results ctx w).2
     = requests w
       ++ [Provider.chat_request p search_prompt
             (Provider.search_payload query platform min_results max_results)].
Proof.
  intros Hq Hb Hup Hc Hl Hv.
  rewrite (search_answered _ _ _ _ _ ctx _ _ _ Hq Hb Hup Hc).
  unfold Provider.interpret. rewrite (decode_entries_stages _ _ Hl).
  rewrite (reconcile_valid _ _ _ Hv).
  pose proof (Forall2_length _ _ _ Hv) as Hlen.
  split; [reflexivity|]. split.
  { eapply Forall2_impl; [exact Hv|]. intros e r Hr.
    by destruct (to_search_result_some e r Hr) as (Ht & _ & Hu & _). }
  split; [rewrite length_take; lia|].
  split; [intros Hn; rewrite take_ge; [reflexivity | lia]|]. done.
Qed.

(** C2. When the request is valid, the endpoint answers 200 and the
    assistant's text decodes, strictly or after the cleanup, to a JSON
    array, [search] returns a JSON array and never an error string, with
    one element for each of the first [max_results] entries that has a
    non-empty string under [title] and under [url], in their order, and
    none for the others. So every element has a non-empty title and url;
    its [description] is a string, the one under [description] in the
    entry, else the one under [snippet], else the empty string. *)
Theorem search_drops_incomplete_entries (p : GrokSearchProvider)
    (query platform : string) (min_results max_results : Z) (ctx : bool) (w : World)
    (body content : string) (entries : list json) :
  query <> EmptyString ->
  (0 <= min_results <= max_results)%Z ->
  upstream w (requests w)
    (Provider.chat_request p search_prompt
       (Provider.search_payload query platform min_results max_results))
  = Return {| status_code := 200; text := body |} ->
  Provider.extract_content body = Some content ->
  loads content = Some (JArray entries)
  \/ ((forall l, loads content <> Some (JArray l))
      /\ loads (Provider.strip_wrapping content) = Some (JArray entries)) ->
  exists items : list SearchResult,
    (Provider.search p query platform min_results max_results ctx w).1
    = dumps
        (JArray
           ((fun r : SearchResult =>
               JObject
                 ([("title", JString (title r)); ("url", JString (url r));
                   ("description", JString (snippet r))]
                  ++ match source r with
                     | Some s => [("source", JString s)]
                     | None => []
                     end
                  ++ match published_date r with
                     | Some d => [("published_date", JString d)]
                     | None => []
                     end))
              <$> items))
    /\ items = omap Provider.to_search_result (take (Z.to_nat max_results) entries)
    /\ Forall (fun r => title r <> EmptyString /\ url r <> EmptyString) items
    /\ (forall e : json,
          Provider.to_search_result e = None
          <-> ~ exists t u, Json.str_field "title" e = Some t /\ t <> EmptyString
                            /\ Json.str_field "url" e = Some u /\ u <> EmptyString)
    /\ (forall (e : json) (r : SearchResult),
          Provider.to_search_result e = Some r ->
          Json.str_field "title" e = Some (title r)
          /\ Json.str_field "url" e = Some (url r)
          /\ snippet r
             = match Json.str_field "description" e with
               | Some s => s
               | None =>
                   match Json.str_field "snippet" e with
                   | Some s => s
                   | None => EmptyString
                   end
               end).
Proof.
  intros Hq Hb Hup Hc Hl.
  rewrite (search_answered _ _ _ _ _ ctx _ _ _ Hq Hb Hup Hc).
  unfold Provider.interpret. rewrite (decode_entries_stages _ _ Hl).
  exists (Provider.reconcile max_results entries).
  split; [reflexivity|]. split; [reflexivity|].
  split; [apply omap_Forall, to_search_result_nonempty|].
  split; [apply to_search_result_none|].
  intros e r Hr. by destruct (to_search_result_some e r Hr) as (Ht & _ & Hu & _ & Hs & _).
Qed.

End ProviderFacts.

Section RetryFacts.
Context `{!JsonCodec} `{!PromptTemplates}.

Lemma interpret_retry (max_results : Z) (content : string) :
  Provider.decode_array content = None ->
  Provider.interpret max_results content
  = match Provider.decode_array (Provider.strip_wrapping content) with
    | Some entries => Answer (Provider.reconcile max_results entries)
    | None => Failure (UpstreamFormatError "response is not a JSON array")
    end.
Proof.
  intros Hd. unfold Provider.interpret, Provider.decode_entries. rewrite Hd.
  by destruct (Provider.decode_array (Provider.strip_wrapping content)).
Qed.

(** Wrapped in anything the cleanup removes, an array text is read as it
    is read bare. *)
Lemma interpret_unwrapped (max_results : Z) (wrapped mid : string) :
  Provider.strip_wrapping wrapped = "[" +:+ mid +:+ "]" ->
  Provider.decode_array wrapped = None ->
  Provider.interpret max_results wrapped
  = Provider.interpret max_results ("[" +:+ mid +:+ "]").
Proof.
  intros Hs Hd. rewrite (interpret_retry _ _ Hd), Hs.
  unfold Provider.interpret, Provider.decode_entries.
  rewrite strip_wrapping_array.
  by destruct (Provider.decode_array ("[" +:+ mid +:+ "]")).
Qed.

(** C4. A valid search whose answer does not decode strictly as a JSON
    array decodes it once more, after the cleanup, and this second decode
    settles what [search] returns: the JSON array of the results of the
    entries when it succeeds, and the string "UpstreamFormatError:
    response is not a JSON array" when it fails too, which [web_search]
    returns as it is; one request has been issued either way. So a search
    answered with an array text wrapped in what the cleanup removes, a
    code fence or prose without brackets, returns what the same search
    returns when it is answered with the bare array text. *)
Theorem search_retries_decode_once (p : GrokSearchProvider) (query platform : string)
    (min_results max_results : Z) (ctx : bool) :
  query <> EmptyString ->
  (0 <= min_results <= max_results)%Z ->
  (forall (w : World) (body content : string),
     upstream w (requests w)
       (Provider.chat_request p search_prompt
          (Provider.search_payload query platform min_results max_results))
     = Return {| status_code := 200; text := body |} ->
     Provider.extract_content body = Some content ->
     (forall l, loads content <> Some (JArray l)) ->
     (forall entries : list json,
        loads (Provider.strip_wrapping content) = Some (JArray entries) ->
        (Provider.search p query platform min_results max_results ctx w).1
        = dumps
            (JArray
               ((fun r : SearchResult =>
                   JObject
                     ([("title", JString (title r)); ("url", JString (url r));
                       ("description", JString (snippet r))]
                      ++ match source r with
                         | Some s => [("source", JString s)]
                         | None => []
                         end
                      ++ match published_date r with
                         | Some d => [("published_date", JString d)]
                         | None => []
                         end))
                  <$> omap Provider.to_search_result
                        (take (Z.to_nat max_results) entries))))
     /\ ((forall l, loads (Provider.strip_wrapping content) <> Some (JArray l)) ->
         (Provider.search p query platform min_results max_results ctx w).1
         = "UpstreamFormatError: response is not a JSON array"
         /\ forall (c : Config) (m : ModelStore),
              Server.resolve c m = Return (api_url p, api_key p, model p) ->
              (Server.web_search c m query platform min_results max_results ctx w).1
              = Return "UpstreamFormatError: response is not a JSON array")
     /\ requests (Provider.search p query platform min_results max_results ctx w).2
        = requests w
          ++ [Provider.chat_request p search_prompt
                (Provider.search_payload query platform min_results max_results)])
  /\ (forall (w w' : World) (body body' pre mid post : string),
        upstream w (requests w)
          (Provider.chat_request p search_prompt
             (Provider.search_payload query platform min_results max_results))
        = Return {| status_code := 200; text := body |} ->
        Provider.extract_content body = Some (pre +:+ ("[" +:+ mid +:+ "]") +:+ post) ->
        Str.mem "[" pre = false ->
        Str.mem "]" post = false ->
        (forall l, loads (pre +:+ ("[" +:+ mid +:+ "]") +:+ post) <> Some (JArray l)) ->
        upstream w' (requests w')
          (Provider.chat_request p search_prompt
             (Provider.search_payload query platform min_results max_results))
        = Return {| status_code := 200; text := body' |} ->
        Provider.extract_content body' = Some ("[" +:+ mid +:+ "]") ->
        (Provider.search p query platform min_results max_results ctx w).1
        = (Provider.search p query platform min_results max_results ctx w').1).
Proof.
  intros Hq Hb. split.
  - intros w body content Hup Hc Hno.
    rewrite (search_answered _ _ _ _ _ ctx _ _ _ Hq Hb Hup Hc).
    rewrite (interpret_retry _ _ (proj2 (decode_array_none _) Hno)).
    split; [|split].
    + intros entries Hl. by rewrite (proj2 (decode_array_some _ _) Hl).
    + intros Hno2. rewrite (proj2 (decode_array_none _) Hno2). split; [done|].
      intros c m Hr.
      unfold Server.web_search, Server.web_search_with, Server.web_search_start.
      rewrite Hr. destruct p as [a k mo].
      unfold Server.web_search_resume_with, Server.provider_search. simpl.
      rewrite (search_answered _ query platform min_results max_results ctx _ body content
                 Hq Hb); [|by rewrite log_info_upstream, log_info_requests|done].
      rewrite (interpret_retry _ _ (proj2 (decode_array_none _) Hno)).
      by rewrite (proj2 (decode_array_none _) Hno2).
    + done.
  - intros w w' body body' pre mid post Hup Hc Hpre Hpost Hno Hup' Hc'.
    rewrite (search_answered _ _ _ _ _ ctx _ _ _ Hq Hb Hup Hc).
    rewrite (search_answered _ _ _ _ _ ctx _ _ _ Hq Hb Hup' Hc').
    simpl. f_equal. apply interpret_unwrapped.
    + by apply strip_wrapping_unwraps.
    + by apply decode_array_none.
Qed.

End RetryFacts.

(** * The properties at concrete inputs *)

Section Witnesses.

Lemma sample_entry_hit (n : nat) :
  Provider.to_search_result (Sample.entry n) = Some (Sample.hit n).
Proof. reflexivity. Qed.

Lemma sample_fifteen_valid :
  Forall2 (fun e r => Provider.to_search_result e = Some r)
    Sample.fifteen (Sample.hit <$> seq 1 15).
Proof.
  unfold Sample.fifteen. apply Forall2_fmap, Forall_Forall2_diag, Forall_forall.
  intros n _. apply sample_entry_hit.
Qed.

(** Fifteen valid entries with [min_results = 3] and [max_results = 10]:
    the first ten come back, in the order given. *)
Lemma search_truncates_in_order_witness :
  (@Provider.search RefCodec.codec Sample.prompts Sample.provider
     "rocq" EmptyString 3 10 false Sample.fifteen_world).1
  = RefCodec.json_dumps (JArray (Sample.entry <$> seq 1 10))
  /\ length (requests
               (@Provider.search RefCodec.codec Sample.prompts Sample.provider
                  "rocq" EmptyString 3 10 false Sample.fifteen_world).2) = 1.
Proof.
  destruct (@search_truncates_in_order RefCodec.codec Sample.prompts Sample.provider
              "rocq" EmptyString 3 10 false Sample.fifteen_world
              (Sample.chat_body (RefCodec.json_dumps (JArray Sample.fifteen)))
              (RefCodec.json_dumps (JArray Sample.fifteen))
              Sample.fifteen (Sample.hit <$> seq 1 15))
    as (Hret & _ & _ & _ & Hreq).
  - discriminate.
  - lia.
  - reflexivity.
  - vm_compute. reflexivity.
  - left. vm_compute. reflexivity.
  - exact sample_fifteen_valid.
  - split.
    + etrans; [exact Hret|]. vm_compute. reflexivity.
    + rewrite Hreq. reflexivity.
Defined.

(** Of three entries, one without [url] and one with a null
    [description], two come back, the second with an empty string under
    [description]. *)
Lemma search_drops_incomplete_entries_witness :
  (@Provider.search RefCodec.codec Sample.prompts Sample.provider
     "rocq" EmptyString 3 10 false Sample.mixed_world).1
  = RefCodec.json_dumps
      (JArray [JObject [("title", JString "Result 1");
                        ("url", JString "https://example.test/1");
                        ("description", JString "About 1")];
               JObject [("title", JString "Bare");
                        ("url", JString "https://example.test/bare");
                        ("description", JString EmptyString)]]).
Proof.
  destruct (@search_drops_incomplete_entries RefCodec.codec Sample.prompts Sample.provider
              "rocq" EmptyString 3 10 false Sample.mixed_world
              (Sample.chat_body (RefCodec.json_dumps (JArray Sample.mixed)))
              (RefCodec.json_dumps (JArray Sample.mixed)) Sample.mixed)
    as (items & Hret & Hitems & _).
  - discriminate.
  - lia.
  - reflexivity.
  - vm_compute. reflexivity.
  - left. vm_compute. reflexivity.
  - etrans; [exact Hret|]. rewrite Hitems. vm_compute. reflexivity.
Defined.

(** An array of two entries in a code fence gives the two entries, as
    the bare array does, and text that is no JSON gives the format error
    string. *)
Lemma search_retries_decode_once_witness :
  (@Provider.search RefCodec.codec Sample.prompts Sample.provider
     "rocq" EmptyString 3 10 false Sample.fenced_world).1
  = RefCodec.json_dumps (JArray [Sample.entry 1; Sample.entry 2])
  /\ (@Provider.search RefCodec.codec Sample.prompts Sample.provider
        "rocq" EmptyString 3 10 false Sample.fenced_world).1
     = (@Provider.search RefCodec.codec Sample.prompts Sample.provider
          "rocq" EmptyString 3 10 false Sample.pair_world).1
  /\ (@Provider.search RefCodec.codec Sample.prompts Sample.provider
        "rocq" EmptyString 3 10 false Sample.garbage_world).1
     = "UpstreamFormatError: response is not a JSON array".
Proof.
  destruct (@search_retries_decode_once RefCodec.codec Sample.prompts Sample.provider
              "rocq" EmptyString 3 10 false)
    as (Hretry & Hsame); [discriminate | lia |].
  assert (Hfenced :
    (@Provider.search RefCodec.codec Sample.prompts Sample.provider
       "rocq" EmptyString 3 10 false Sample.fenced_world).1
    = (@Provider.search RefCodec.codec Sample.prompts Sample.provider
         "rocq" EmptyString 3 10 false Sample.pair_world).1).
  { apply (Hsame Sample.fenced_world Sample.pair_world
             (Sample.chat_body
                (Provider.code_fenced (RefCodec.json_dumps (JArray Sample.pair))))
             (Sample.chat_body (RefCodec.json_dumps (JArray Sample.pair)))
             ("```json" +:+ Str.nl)
             (Str.join ", " (map RefCodec.json_dumps Sample.pair))
             (Str.nl +:+ "```")).
    - reflexivity.
    - vm_compute. reflexivity.
    - reflexivity.
    - reflexivity.
    - intros l. vm_compute. discriminate.
    - reflexivity.
    - vm_compute. reflexivity. }
  split; [|split].
  - etrans; [exact Hfenced|]. vm_compute. reflexivity.
  - exact Hfenced.
  - destruct (Hretry Sample.garbage_world
                (Sample.chat_body "I could not find anything.")
                "I could not find anything.") as (_ & Hfail & _).
    + reflexivity.
    + vm_compute. reflexivity.
    + intros l. vm_compute. discriminate.
    + apply Hfail. intros l. vm_compute. discriminate.
Defined.

(** [fetch("not-a-url")]. *)
Lemma fetch_rejects_other_schemes_witness :
  @Provider.fetch RefCodec.codec Sample.prompts Sample.provider "not-a-url" false
    Sample.garbage_world
  = ("InvalidInputError: URL must start with http:// or https://: not-a-url",
     Sample.garbage_world).
Proof.
  exact (proj1 (proj2 (@fetch_rejects_other_schemes RefCodec.codec Sample.prompts
                         Sample.provider "not-a-url" false Sample.garbage_world
                         eq_refl eq_refl))).
Defined.

(** A dict with [grok.api_key] alone, and a call without a context on a
    configuration whose [grok_api_url] raises. *)
Lemma missing_setting_reported_per_call_witness :
  RawConfig.grok_api_url Sample.key_only
  = Raise (ValueError "grok.api_url not configured")
  /\ RawConfig.grok_api_key Sample.key_only = Return (TString "sk-test")
  /\ (@Server.web_search RefCodec.codec Sample.prompts Sample.no_url
        (Sample.store None) "rocq" EmptyString 3 10 false Sample.garbage_world).1
     = Return "Configuration error: grok.api_url not configured".
Proof.
  destruct (missing_setting_reported_per_call Sample.key_only)
    as (Htable & _ & _ & _ & _ & _ & Htool).
  destruct (Htable [("api_key", TString "sk-test")] eq_refl) as (Hu & _ & _ & Hk).
  split; [|split].
  - apply Hu. split; [reflexivity|]. by left.
  - apply Hk. split; reflexivity.
  - exact (proj1 (Htool (@Server.provider_search RefCodec.codec Sample.prompts)
                    (@Server.provider_fetch RefCodec.codec Sample.prompts) Sample.no_url
                    (Sample.store None) "rocq" EmptyString "https://example.test/"
                    3%Z 10%Z false Sample.garbage_world "grok.api_url not configured"
                    (or_introl eq_refl) (or_introl eq_refl))).
Defined.


(** A listing of two models, a quarter of a second after the request. *)
Lemma get_config_info_lists_models_witness :
  exists test_result,
    Json.obj_get "connection_test"
      (@Server.get_config_info_dict RefCodec.codec Server.exact Sample.complete [] 0 (1 # 4)
         Sample.listing_world).1
    = Some (JObject test_result)
    /\ Json.obj_get "message" test_result
       = Some (JString "Successfully retrieved model list (HTTP 200), total 2 models")
    /\ Json.obj_get "available_models" test_result
       = Some (JArray [JString "grok-4-fast"; JString "grok-3"])
    /\ exists q, Json.obj_get "response_time_ms" test_result = Some (JFloat q)
                 /\ (0 <= q)%Q.
Proof.
  destruct (@get_config_info_lists_models RefCodec.codec Server.exact Sample.complete []
              0 (1 # 4)
              Sample.listing_world "https://api.example.test/v1/" "sk-test"
              (RefCodec.json_dumps
                 (JObject [("object", JString "list");
                           ("data", JArray [JObject [("id", JString "grok-4-fast")];
                                            JObject [("id", JString "grok-3")]])]))
              [("object", JString "list");
               ("data", JArray [JObject [("id", JString "grok-4-fast")];
                                JObject [("id", JString "grok-3")]])]
              [JObject [("id", JString "grok-4-fast")]; JObject [("id", JString "grok-3")]]
              ["grok-4-fast"; "grok-3"])
    as (test_result & Hct & _ & Hmsg & Hmodels & Hms & Hsign & _).
  - vm_compute. reflexivity.
  - vm_compute. reflexivity.
  - reflexivity.
  - vm_compute. reflexivity.
  - reflexivity.
  - repeat constructor.
  - exists test_result. split; [exact Hct|]. split; [exact Hmsg|].
    split; [exact Hmodels|]. eexists. split; [exact Hms|].
    apply (Hsign exact_signs). unfold Qle. simpl. lia.
Defined.

(** No configuration file; a complete one; and one whose log level
    names a flag of the logging module. *)
Lemma startup_fatal_conditions_witness :
  ConfigResolver.Config_new (Sample.disk None)
  = Raise (FileNotFoundError "Configuration file not found: config.toml")
  /\ returns (@startup Sample.logging
                (Sample.disk (Some (Document (_config_data Sample.complete)))))
  /\ returns (@startup Sample.logging
                (Sample.disk (Some (Document (_config_data Sample.flagged))))).
Proof.
  destruct (@startup_fatal_conditions Sample.logging (Sample.disk None)) as (Habsent & _).
  split; [exact (proj1 (Habsent eq_refl))|]. split.
  - destruct (@startup_fatal_conditions Sample.logging
                (Sample.disk (Some (Document (_config_data Sample.complete)))))
      as (_ & _ & Hdoc & _).
    apply (proj1 (proj2 (Hdoc _ eq_refl))).
    split; [reflexivity|]. split; [|reflexivity].
    exists 20%Z. vm_compute. reflexivity.
  - destruct (@startup_fatal_conditions Sample.logging
                (Sample.disk (Some (Document (_config_data Sample.flagged)))))
      as (_ & _ & Hdoc & _).
    apply (proj1 (proj2 (Hdoc _ eq_refl))).
    split; [reflexivity|]. split; [|reflexivity].
    exists 1%Z. vm_compute. reflexivity.
Defined.


End Witnesses.


(** C6, as stated, fails. A setting that is present and is the number 0
    raises the [ValueError] of a missing setting; a [grok] that is a
    string and no table raises [AttributeError], which is no
    [ValueError]; and on a missing setting the tool raises instead of
    returning the string when the context of the call rejects the message
    as progress. *)
Lemma present_setting_reported_missing :
  RawConfig.lookup "api_url" [("api_url", TInteger 0); ("api_key", TString "sk-test")]
  = Some (TInteger 0)
  /\ RawConfig.grok_api_url Sample.numbered
     = Raise (ValueError "grok.api_url not configured")
  /\ RawConfig.grok_api_url Sample.untabled
     = Raise (AttributeError "'str' object has no attribute 'get'")
  /\ (@Server.web_fetch RefCodec.codec Sample.prompts Sample.no_url (Sample.store None)
        "https://example.test/" true (Sample.strict_world (Sample.ok EmptyString))).1
     = Raise (ValueError
                "progress: input should be a valid number: grok.api_url not configured").
Proof. repeat split; vm_compute; reflexivity. Qed.

(** ** How each failure reaches the caller *)

Section FailureFacts.
Context `{!JsonCodec} `{!PromptTemplates} `{!FloatArith}.
Import ConfigResolver.

(** A client exception during a search comes back as the transport error
    string. *)
Lemma web_search_transport_failure (c : Config) (m : ModelStore)
    (a k mo query platform : string) (min_results max_results : Z) (ctx : bool)
    (w : World) (e : exn) :
  Server.resolve c m = Return (a, k, mo) ->
  query <> EmptyString ->
  (0 <= min_results <= max_results)%Z ->
  upstream w (requests w)
    (Provider.chat_request {| api_url := a; api_key := k; model := mo |} search_prompt
       (Provider.search_payload query platform min_results max_results))
  = Raise e ->
  (Server.web_search c m query platform min_results max_results ctx w).1
  = Return ("TransportError: " +:+ exn_message e).
Proof.
  intros Hr Hq Hb Hup.
  unfold Server.web_search, Server.web_search_with, Server.web_search_start.
  rewrite Hr.
  unfold Server.web_search_resume_with, Server.provider_search, Provider.search,
    Provider.search_items.
  simpl. rewrite (validate_search_ok _ _ _ Hq Hb).
  unfold Provider.chat, Effects.send.
  rewrite log_info_upstream, log_info_requests, Hup. reflexivity.
Qed.

(** An empty query is refused before anything is sent. *)
Lemma web_search_empty_query (c : Config) (m : ModelStore) (a k mo platform : string)
    (min_results max_results : Z) (ctx : bool) (w : World) :
  Server.resolve c m = Return (a, k, mo) ->
  (Server.web_search c m EmptyString platform min_results max_results ctx w).1
  = Return "InvalidInputError: query must not be empty"
  /\ requests (Server.web_search c m EmptyString platform min_results max_results ctx w).2
     = requests w.
Proof.
  intros Hr.
  unfold Server.web_search, Server.web_search_with, Server.web_search_start. rewrite Hr.
  unfold Server.web_search_resume_with, Server.provider_search, Provider.search,
    Provider.search_items. simpl.
  split; [reflexivity|]. by rewrite !log_info_requests.
Qed.

(** When an accessor raises the [ValueError] of a missing setting,
    [get_config_info] reports it inside its connection test, with the
    message of the exception, the response time it started with and no
    models, and does nothing else: no request is sent. *)
Lemma get_config_info_missing_setting (c : Config) (config_info : list (string * json))
    (t0 t1 : Q) (w : World) (msg : string) :
  (grok_api_url c = Raise (ValueError msg)
   \/ exists a, grok_api_url c = Return a /\ grok_api_key c = Raise (ValueError msg)) ->
  exists test_result,
    Json.obj_get "connection_test" (Server.get_config_info_dict c config_info t0 t1 w).1
    = Some (JObject test_result)
    /\ Json.obj_get "status" test_result = Some (JString "❌ Configuration error")
    /\ Json.obj_get "message" test_result = Some (JString msg)
    /\ Json.obj_get "response_time_ms" test_result = Some (JInt 0)
    /\ Json.obj_get "available_models" test_result = None
    /\ (Server.get_config_info_dict c config_info t0 t1 w).2 = w.
Proof.
  intros Hmiss. unfold Server.get_config_info_dict, Server.connection_test.
  destruct Hmiss as [Hu|(a & Hu & Hk)]; rewrite Hu; [|rewrite Hk]; simpl.
  - eexists. split; [apply obj_get_obj_set|]. done.
  - eexists. split; [apply obj_get_obj_set|]. done.
Qed.

End FailureFacts.

(** ** The model at work *)

Section Runs.

Example format_two_results :
  Formatter.format_search_results
    [Sample.hit 1;
     {| title := "Notes"; url := EmptyString; snippet := EmptyString;
        source := Some "blog"; published_date := Some EmptyString |}]
  = "## Result 1: Result 1" +:+ Str.nl
    +:+ "**URL:** https://example.test/1" +:+ Str.nl
    +:+ "**Summary:** About 1"
    +:+ Str.nl +:+ Str.nl +:+ "---" +:+ Str.nl +:+ Str.nl
    +:+ "## Result 2: Notes" +:+ Str.nl
    +:+ "**Source:** blog".
Proof. vm_compute. reflexivity. Qed.

Example decode_round_trip :
  RefCodec.json_loads (RefCodec.json_dumps (JArray Sample.mixed))
  = Some (JArray Sample.mixed).
Proof. vm_compute. reflexivity. Qed.

Example repeated_key_keeps_last_value :
  RefCodec.json_loads
    ("{ " +:+ RefCodec.quoted "a" +:+ ": 1, " +:+ RefCodec.quoted "b" +:+ ": 2, "
     +:+ RefCodec.quoted "a" +:+ ": 3 }")
  = Some (JObject [("a", JInt 3); ("b", JInt 2)]).
Proof. vm_compute. reflexivity. Qed.

Example fenced_text_fails_strict_decode :
  RefCodec.json_loads
    (Provider.code_fenced (RefCodec.json_dumps (JArray [Sample.entry 1])))
  = None.
Proof. vm_compute. reflexivity. Qed.

Example take_counts_characters :
  Str.take 2 "été" = "ét" /\ Str.chars "été" = 3%nat /\ String.length "été" = 5%nat
  /\ Str.take 5 "été" = "été".
Proof. vm_compute. repeat split; reflexivity. Qed.

Example untyped_settings :
  RawConfig.grok_api_url [("grok", TTable [("api_url", TInteger 8080)])]
  = Return (TInteger 8080)
  /\ RawConfig.grok_api_url [("grok", TTable [("api_url", TBoolean false)])]
     = Raise (ValueError "grok.api_url not configured")
  /\ RawConfig.grok_api_url [] = Raise (ValueError "grok.api_url not configured").
Proof. repeat split; reflexivity. Qed.

Example rstrip_slashes :
  Str.rstrip "/" "https://api.example.test/v1//" = "https://api.example.test/v1".
Proof. vm_compute. reflexivity. Qed.

Example switch_then_search_names_new_model :
  let m' := (Server.switch_model_dict "grok-3" (Sample.store None)).2 in
  requests
    (@Server.web_search RefCodec.codec Sample.prompts Sample.complete m'
       "rocq" EmptyString 3 10 false Sample.garbage_world).2
  = [Provider.chat_request
       {| api_url := "https://api.example.test/v1/"; api_key := "sk-test";
          model := "grok-3" |}
       (@search_prompt Sample.prompts)
       (Provider.search_payload "rocq" EmptyString 3 10)].
Proof. vm_compute. reflexivity. Qed.

End Runs.

(** * Further properties of the code *)

(** ** [toggle_builtin_tools]: the deny list *)

Section DenyListFacts.
Import Toggle.

Lemma denied_app (t : string) (l1 l2 : list json) :
  denied t (l1 ++ l2) = denied t l1 || denied t l2.
Proof. apply existsb_app. Qed.

Lemma deny_on_unfold (deny : list json) :
  deny_on deny
  = deny ++ (if denied "WebFetch" deny then [] else [JString "WebFetch"])
         ++ (if denied "WebSearch" deny then [] else [JString "WebSearch"]).
Proof.
  unfold deny_on, tools. simpl.
  destruct (denied "WebFetch" deny) eqn:E1; simpl.
  - destruct (denied "WebSearch" deny); simpl; by rewrite ?app_nil_r.
  - rewrite denied_app. simpl. rewrite orb_false_r.
    destruct (denied "WebSearch" deny); simpl; by rewrite <- ?app_assoc, ?app_nil_r.
Qed.

Lemma all_denied_spec (deny : list json) :
  all_denied deny = denied "WebFetch" deny && denied "WebSearch" deny.
Proof. unfold all_denied, tools. simpl. by rewrite andb_true_r. Qed.

Lemma deny_on_all_denied (deny : list json) : all_denied (deny_on deny) = true.
Proof.
  rewrite all_denied_spec, deny_on_unfold, !denied_app.
  destruct (denied "WebFetch" deny), (denied "WebSearch" deny); reflexivity.
Qed.

Lemma deny_on_fixed (deny : list json) : all_denied deny = true -> deny_on deny = deny.
Proof.
  rewrite all_denied_spec, deny_on_unfold. intros [-> ->]%andb_true_iff.
  by rewrite !app_nil_r.
Qed.

Lemma is_tool_spec (v : json) :
  is_tool v = is_string "WebFetch" v || is_string "WebSearch" v.
Proof. unfold is_tool, tools. simpl. by rewrite orb_false_r. Qed.

Lemma denied_deny_off (t : string) (deny : list json) :
  t = "WebFetch" \/ t = "WebSearch" -> denied t (deny_off deny) = false.
Proof.
  intros Ht. unfold denied, deny_off.
  induction deny as [|v deny IH]; simpl; [done|].
  destruct (is_tool v) eqn:E; simpl; [exact IH|].
  rewrite IH, orb_false_r. rewrite is_tool_spec in E.
  apply orb_false_elim in E as [E1 E2]. by destruct Ht as [-> | ->].
Qed.

Lemma deny_off_all_denied (deny : list json) : all_denied (deny_off deny) = false.
Proof. rewrite all_denied_spec, denied_deny_off; [done | by left]. Qed.

Lemma deny_off_app (l1 l2 : list json) :
  deny_off (l1 ++ l2) = deny_off l1 ++ deny_off l2.
Proof. unfold deny_off. apply List.filter_app. Qed.

Lemma deny_off_deny_on (deny : list json) : deny_off (deny_on deny) = deny_off deny.
Proof.
  rewrite deny_on_unfold, !deny_off_app.
  destruct (denied "WebFetch" deny), (denied "WebSearch" deny); simpl;
    by rewrite ?app_nil_r.
Qed.

Lemma deny_off_idempotent (deny : list json) : deny_off (deny_off deny) = deny_off deny.
Proof.
  unfold deny_off. induction deny as [|v deny IH]; simpl; [done|].
  destruct (is_tool v) eqn:E; simpl; [exact IH|]. rewrite E. simpl. by f_equal.
Qed.



End DenyListFacts.

(** ** [toggle_builtin_tools]: the tool *)

Section ToggleFacts.
Context `{!JsonCodec}.
Import Toggle.

Lemma obj_set_obj_set (key : string) (v v' : json) (members : list (string * json)) :
  Json.obj_set key v (Json.obj_set key v' members) = Json.obj_set key v members.
Proof.
  induction members as [|[k old] rest IH]; simpl.
  - by rewrite String.eqb_refl.
  - destruct (String.eqb k key) eqn:E; simpl; rewrite E; [done | by rewrite IH].
Qed.




(** Settings that have been written back open to the list written. *)
Lemma open_settings_with_deny (top permissions : list (string * json)) (deny : list json) :
  open_settings (with_deny top permissions deny)
  = Some (Return
            (Json.obj_set "permissions"
               (JObject (Json.obj_set "deny" (JArray deny) permissions)) top,
             Json.obj_set "deny" (JArray deny) permissions, deny)).
Proof.
  unfold open_settings, with_deny. rewrite obj_get_obj_set. simpl.
  by rewrite obj_get_obj_set.
Qed.

Lemma with_deny_again (top permissions : list (string * json)) (deny deny' : list json) :
  with_deny
    (Json.obj_set "permissions"
       (JObject (Json.obj_set "deny" (JArray deny) permissions)) top)
    (Json.obj_set "deny" (JArray deny) permissions) deny'
  = with_deny top permissions deny'.
Proof. unfold with_deny. by rewrite !obj_set_obj_set. Qed.


(** What a call does once the settings are read and opened. *)
Lemma toggle_dict_opened (action path : string) (ws : Workspace) (settings : json)
    (top permissions : list (string * json)) (deny : list json) :
  path = settings_path (project_root (has_git ws) (cwd ws)) ->
  load_settings path ws = Return settings ->
  open_settings settings = Some (Return (top, permissions, deny)) ->
  toggle_dict action ws
  = match classify action with
    | TurnOn =>
        match write_settings path (with_deny top permissions (deny_on deny)) ws with
        | (Raise e, ws') => Some (Raise e, ws')
        | (Return _, ws') =>
            Some (Return (report true (deny_on deny) path "Built-in tools disabled"), ws')
        end
    | TurnOff =>
        match write_settings path (with_deny top permissions (deny_off deny)) ws with
        | (Raise e, ws') => Some (Raise e, ws')
        | (Return _, ws') =>
            Some (Return (report false (deny_off deny) path "Built-in tools enabled"), ws')
        end
    | Status =>
        Some (Return (report (all_denied deny) deny path
                        ("Built-in tools currently "
                         +:+ (if all_denied deny then "disabled" else "enabled"))), ws)
    end.
Proof.
  intros -> Hl Ho. unfold toggle_dict. rewrite Hl, Ho. reflexivity.
Qed.

Lemma load_settings_written (path : string) (settings : json) (ws : Workspace) :
  loads (dumps settings) = Some settings ->
  load_settings path (written path settings ws) = Return settings.
Proof.
  intros Hrt. unfold load_settings, written, holding. simpl.
  by rewrite lookup_insert_eq, Hrt.
Qed.

Lemma written_written (path : string) (s1 s2 : json) (ws : Workspace) :
  written path s2 (written path s1 ws) = written path s2 ws.
Proof. unfold written, holding. simpl. by rewrite insert_insert_eq. Qed.

(** A write that completes leaves the text in the file. *)
Lemma write_settings_written (path : string) (settings : json) (ws : Workspace) :
  write_outcome ws path (dumps settings) = Written ->
  write_settings path settings ws = (Return (), written path settings ws).
Proof. intros Hw. unfold write_settings. by rewrite Hw. Qed.




(** Calls compose through the file: when the writes complete and the
    settings written by "on" read back as they were written, a status
    call after it reports the tools blocked, a second "on" writes the
    same file again, and an "off" after it leaves the file that an "off"
    alone would have left. *)
Theorem toggle_on_then_again (path : string) (ws : Workspace) (settings : json)
    (top permissions : list (string * json)) (deny : list json) :
  path = settings_path (project_root (has_git ws) (cwd ws)) ->
  load_settings path ws = Return settings ->
  open_settings settings = Some (Return (top, permissions, deny)) ->
  write_outcome ws path (dumps (with_deny top permissions (deny_on deny))) = Written ->
  write_outcome ws path (dumps (with_deny top permissions (deny_off deny))) = Written ->
  loads (dumps (with_deny top permissions (deny_on deny)))
  = Some (with_deny top permissions (deny_on deny)) ->
  let ws1 := written path (with_deny top permissions (deny_on deny)) ws in
  toggle_dict "on" ws = Some (Return (report true (deny_on deny) path
                                        "Built-in tools disabled"), ws1)
  /\ toggle_dict "status" ws1
     = Some (Return (report true (deny_on deny) path
                       "Built-in tools currently disabled"), ws1)
  /\ toggle_dict "on" ws1
     = Some (Return (report true (deny_on deny) path "Built-in tools disabled"), ws1)
  /\ toggle_dict "off" ws1
     = Some (Return (report false (deny_off deny) path "Built-in tools enabled"),
             written path (with_deny top permissions (deny_off deny)) ws).
Proof.
  intros Hp Hl Ho Hw Hwoff Hrt ws1.
  assert (Hp1 : path = settings_path (project_root (has_git ws1) (cwd ws1))) by exact Hp.
  assert (Hl1 : load_settings path ws1 = Return (with_deny top permissions (deny_on deny)))
    by (apply load_settings_written, Hrt).
  pose proof (open_settings_with_deny top permissions (deny_on deny)) as Ho1.
  assert (Hw1 : write_outcome ws1 path (dumps (with_deny top permissions (deny_on deny)))
                = Written) by exact Hw.
  assert (Hw2 : write_outcome ws1 path (dumps (with_deny top permissions (deny_off deny)))
                = Written) by exact Hwoff.
  split.
  { rewrite (toggle_dict_opened "on" path ws settings top permissions deny Hp Hl Ho).
    simpl. by rewrite (write_settings_written _ _ _ Hw). }
  split.
  { rewrite (toggle_dict_opened "status" path ws1 _ _ _ _ Hp1 Hl1 Ho1).
    simpl. by rewrite deny_on_all_denied. }
  split.
  { rewrite (toggle_dict_opened "on" path ws1 _ _ _ _ Hp1 Hl1 Ho1).
    simpl.
    rewrite (deny_on_fixed _ (deny_on_all_denied deny)), with_deny_again.
    rewrite (write_settings_written _ _ _ Hw1).
    unfold ws1. by rewrite written_written. }
  rewrite (toggle_dict_opened "off" path ws1 _ _ _ _ Hp1 Hl1 Ho1).
  simpl.
  rewrite deny_off_deny_on, with_deny_again.
  rewrite (write_settings_written _ _ _ Hw2).
  unfold ws1. by rewrite written_written.
Qed.

(** The tool has no handler of its own. A settings file that does not
    decode raises the decoder's error, settings that are no dict and a
    [permissions] that is no dict raise [AttributeError], for every
    action, and the files stay as they were. A write that fails raises
    out of the tool as well: the files stay as they were when the
    directory cannot be made or the file cannot be opened, and when the
    dump fails after the file was opened the file holds what had been
    written until then, not the settings it held. *)
Theorem toggle_raises_on_bad_settings (action path : string) (ws : Workspace) :
  path = settings_path (project_root (has_git ws) (cwd ws)) ->
  (forall text, files ws !! path = Some text -> loads text = None ->
     toggle_builtin_tools action ws = Some (Raise (ValueError (decode_error text)), ws))
  /\ (forall settings, load_settings path ws = Return settings ->
        (forall top, settings <> JObject top) ->
        toggle_builtin_tools action ws = Some (Raise (no_setdefault settings), ws))
  /\ (forall top other, load_settings path ws = Return (JObject top) ->
        Json.obj_get "permissions" top = Some other ->
        (forall permissions, other <> JObject permissions) ->
        toggle_builtin_tools action ws = Some (Raise (no_setdefault other), ws))
  /\ (forall settings top permissions deny,
        load_settings path ws = Return settings ->
        open_settings settings = Some (Return (top, permissions, deny)) ->
        classify action <> Status ->
        forall e : exn,
          (write_outcome ws path
             (dumps (with_deny top permissions
                       (match classify action with
                        | TurnOn => deny_on deny
                        | _ => deny_off deny
                        end)))
           = NotOpened e ->
           toggle_builtin_tools action ws = Some (Raise e, ws))
          /\ (forall kept : string,
                write_outcome ws path
                  (dumps (with_deny top permissions
                            (match classify action with
                             | TurnOn => deny_on deny
                             | _ => deny_off deny
                             end)))
                = Interrupted e kept ->
                toggle_builtin_tools action ws = Some (Raise e, holding path kept ws)
                /\ files (holding path kept ws) !! path = Some kept
                /\ forall other, other <> path ->
                     files (holding path kept ws) !! other = files ws !! other)).
Proof.
  intros ->. unfold toggle_builtin_tools. split; [|split; [|split]].
  - intros text Hf Hd. unfold toggle_dict, load_settings. by rewrite Hf, Hd.
  - intros settings Hl Hn. unfold toggle_dict. rewrite Hl.
    destruct settings as [| | | | | |top]; try reflexivity.
    by destruct (Hn top).
  - intros top other Hl Hg Hn. unfold toggle_dict. rewrite Hl.
    unfold open_settings. rewrite Hg. simpl.
    destruct other as [| | | | | |permissions]; try reflexivity.
    by destruct (Hn permissions).
  - intros settings top permissions deny Hl Ho Hc e.
    rewrite (toggle_dict_opened action _ ws settings top permissions deny eq_refl Hl Ho).
    unfold write_settings. split.
    + intros Hw. destruct (classify action); [| |done]; by rewrite Hw.
    + intros kept Hw. split; [|split].
      * destruct (classify action); [| |done]; by rewrite Hw.
      * unfold holding. simpl. by rewrite lookup_insert_eq.
      * intros other Hne. unfold holding. simpl. by rewrite lookup_insert_ne.
Qed.

(** The project root is the nearest directory, from the working directory
    up, that has [.git]; with none, it is the root of the file system. *)
Theorem project_root_nearest (has_git : list string -> bool) (cwd : list string) :
  exists below,
    cwd = below ++ project_root has_git cwd
    /\ (project_root has_git cwd = [] \/ has_git (project_root has_git cwd) = true)
    /\ forall i, (i < length below)%nat -> has_git (drop i cwd) = false.
Proof.
  induction cwd as [|name parent IH]; simpl.
  - exists []. split; [done|]. split; [by left|]. intros i Hi. simpl in Hi. lia.
  - destruct (has_git (name :: parent)) eqn:E.
    + exists []. split; [done|]. split; [by right|]. intros i Hi. simpl in Hi. lia.
    + destruct IH as (below & Hcwd & Hroot & Hbelow).
      exists (name :: below). split; [simpl; by rewrite <- Hcwd|].
      split; [exact Hroot|]. intros [|i] Hi; simpl in *; [exact E|].
      apply Hbelow. lia.
Qed.

End ToggleFacts.

(** ** The [Config] singleton and the logger's level *)

Section SingletonFacts.
Context `{!LoggingModule}.
Import ConfigResolver.

(** [Config()] reads the file once. A second call hands back the instance
    of the first whatever the files have become; after a first call that
    raised, it hands back the instance left behind, which has no settings
    at all, without raising. *)
Theorem Config_is_loaded_once (fs fs' : FileSystem) :
  (Singleton.Config_call {| _instance := None |} fs).1 = Config_new fs
  /\ (Singleton.Config_call (Singleton.Config_call {| _instance := None |} fs).2 fs').1
     = Return match Config_new fs with
              | Return c => c
              | Raise _ => Singleton.unloaded
              end
  /\ (Singleton.Config_call (Singleton.Config_call {| _instance := None |} fs).2 fs').2
     = (Singleton.Config_call {| _instance := None |} fs).2
  /\ grok_api_url Singleton.unloaded = Raise (ValueError "grok.api_url not configured")
  /\ grok_api_key Singleton.unloaded = Raise (ValueError "grok.api_key not configured")
  /\ log_level Singleton.unloaded = "INFO"
  /\ log_dir Singleton.unloaded = "logs"
  /\ debug_enabled Singleton.unloaded = false.
Proof.
  unfold Singleton.Config_call, Config_new. simpl.
  destruct (_load_config fs) as [c|e]; simpl; repeat split; reflexivity.
Qed.

(** A missing [logging.level] stands for INFO, and an empty one does not:
    with the log directory usable, process start succeeds in the first
    case and aborts in the second. *)
Theorem startup_level_absent_or_empty (fs : FileSystem) (d : ConfigData) :
  config_toml fs = Some (Document d) ->
  can_mkdir fs (log_dir {| _config_data := d |}) = true ->
  can_open_log fs (log_dir {| _config_data := d |}) = true ->
  (get_str {| _config_data := d |} "logging" "level" = None ->
   Logger.logger_setup {| _config_data := d |} fs = Return 20%Z
   /\ startup fs = Return {| _config_data := d |})
  /\ (get_str {| _config_data := d |} "logging" "level" = Some EmptyString ->
      startup fs = Raise (AttributeError "module 'logging' has no attribute ''")).
Proof.
  intros Hfs Hmk Hop. unfold startup, Config_new, _load_config. rewrite Hfs. simpl.
  unfold Logger.logger_setup, log_level. rewrite Hmk, Hop. simpl.
  split; intros ->; simpl; by rewrite ?Hop.
Qed.

End SingletonFacts.

(** ** [get_config_info]: the connection test in full *)

Section ConnectionFacts.
Context `{!JsonCodec} `{!FloatArith}.
Import ConfigResolver.

(** A slice is the longest prefix with at most [n] characters: it has
    [n] of them, or all there are, and what it leaves out begins a
    character. *)
Lemma take_spec (s : string) :
  forall n : nat,
    exists rest : string,
      s = Str.take n s +:+ rest
      /\ Str.chars (Str.take n s) = Nat.min n (Str.chars s)
      /\ match rest with
         | EmptyString => True
         | String c _ => Str.is_continuation c = false
         end.
Proof.
  induction s as [|c s IH]; intros n; simpl.
  - exists EmptyString. by rewrite Nat.min_0_r.
  - destruct (Str.is_continuation c) eqn:Ec.
    + destruct (IH n) as (rest & Hs & Hn & Hr). exists rest.
      rewrite app_String. simpl. rewrite Ec. by rewrite <- Hs.
    + destruct n as [|n].
      * exists (String c s). done.
      * destruct (IH n) as (rest & Hs & Hn & Hr). exists rest.
        rewrite app_String. simpl. rewrite Ec, Hn. by rewrite <- Hs.
Qed.

Lemma take_all (s : string) :
  forall n : nat, (Str.chars s <= n)%nat -> Str.take n s = s.
Proof.
  induction s as [|c s IH]; intros n Hn; simpl in *; [done|].
  destruct (Str.is_continuation c).
  - by rewrite IH.
  - destruct n as [|n]; [lia|]. rewrite IH; [done|lia].
Qed.



(** The report keeps every key [config.get_config_info()] gave except
    [connection_test], and the call sends at most one request, the GET of
    the models listing. *)
Theorem get_config_info_keeps_config_info (c : Config)
    (config_info : list (string * json)) (t0 t1 : Q) (w : World) :
  (forall key, key <> "connection_test" ->
     Json.obj_get key (Server.get_config_info_dict c config_info t0 t1 w).1
     = Json.obj_get key config_info)
  /\ (requests (Server.get_config_info_dict c config_info t0 t1 w).2 = requests w
      \/ exists u k,
           grok_api_url c = Return u /\ grok_api_key c = Return k
           /\ requests (Server.get_config_info_dict c config_info t0 t1 w).2
              = requests w ++ [Server.models_request u k])
  /\ upstream (Server.get_config_info_dict c config_info t0 t1 w).2 = upstream w
  /\ ctx_events (Server.get_config_info_dict c config_info t0 t1 w).2 = ctx_events w
  /\ log_lines (Server.get_config_info_dict c config_info t0 t1 w).2 = log_lines w.
Proof.
  unfold Server.get_config_info_dict, Server.connection_test.
  destruct (grok_api_url c) as [u|e]; simpl.
  - destruct (grok_api_key c) as [k|e]; simpl.
    + destruct (upstream w (requests w) (Server.models_request u k)) as [resp|e]; simpl.
      * destruct (status_code resp =? 200)%Z; simpl;
          (split; [intros key Hk; apply obj_get_obj_set_ne; congruence|]);
          (split; [right; eauto|]); done.
      * split; [intros key Hk; apply obj_get_obj_set_ne; congruence|].
        split; [right; eauto|]. done.
    + split; [intros key Hk; apply obj_get_obj_set_ne; congruence|].
      split; [by left|]. done.
  - split; [intros key Hk; apply obj_get_obj_set_ne; congruence|].
    split; [by left|]. done.
Qed.

(** The run of the connection test when both settings are there. *)
Lemma get_config_info_dict_sent (c : Config) (config_info : list (string * json))
    (t0 t1 : Q) (w : World) (u k : string) :
  grok_api_url c = Return u ->
  grok_api_key c = Return k ->
  (Server.get_config_info_dict c config_info t0 t1 w).1
  = Json.obj_set "connection_test"
      (JObject
         match upstream w (requests w) (Server.models_request u k) with
         | Raise e => Server.on_test_exception e Server.initial_test_result
         | Return response =>
             if (status_code response =? 200)%Z then
               Server.add_models (text response)
                 (Json.obj_set "response_time_ms"
                    (JFloat (fl_round2 (fl_mul (fl_sub t1 t0) (inject_Z 1000))))
                    (Json.obj_set "message"
                       (JString ("Successfully retrieved model list (HTTP "
                                 +:+ Str.of_Z (status_code response) +:+ ")"))
                       (Json.obj_set "status" (JString "✅ Connection successful")
                          Server.initial_test_result)))
             else
               Json.obj_set "response_time_ms"
                 (JFloat (fl_round2 (fl_mul (fl_sub t1 t0) (inject_Z 1000))))
                 (Json.obj_set "message"
                    (JString ("HTTP " +:+ Str.of_Z (status_code response) +:+ ": "
                              +:+ Str.take 100 (text response)))
                    (Json.obj_set "status" (JString "⚠️ Connection abnormal")
                       Server.initial_test_result))
         end) config_info.
Proof.
  intros Hu Hk. unfold Server.get_config_info_dict, Server.connection_test.
  rewrite Hu, Hk. unfold Effects.send.
  destruct (upstream w (requests w) (Server.models_request u k)) as [resp|e]; simpl;
    [|done].
  by destruct (status_code resp =? 200)%Z.
Qed.

(** A status other than 200 is reported as abnormal, with the code and
    the first hundred characters of the body, or the whole body when it
    has no more: the longest prefix of the body that has at most a
    hundred characters, none of them cut. The response time is the float
    the arithmetic makes of the two readings, and there is no model
    list. *)
Theorem get_config_info_abnormal_status (c : Config) (config_info : list (string * json))
    (t0 t1 : Q) (w : World) (u k body : string) (code : Z) :
  grok_api_url c = Return u ->
  grok_api_key c = Return k ->
  upstream w (requests w) (Server.models_request u k)
  = Return {| status_code := code; text := body |} ->
  code <> 200%Z ->
  exists (test_result : list (string * json)) (shown rest : string),
    Json.obj_get "connection_test" (Server.get_config_info_dict c config_info t0 t1 w).1
    = Some (JObject test_result)
    /\ Json.obj_get "status" test_result = Some (JString "⚠️ Connection abnormal")
    /\ Json.obj_get "message" test_result
       = Some (JString ("HTTP " +:+ NilZero.string_of_int (Z.to_int code) +:+ ": "
                        +:+ shown))
    /\ body = shown +:+ rest
    /\ Str.chars shown = Nat.min 100 (Str.chars body)
    /\ match rest with
       | EmptyString => True
       | String next _ => Str.is_continuation next = false
       end
    /\ Json.obj_get "response_time_ms" test_result
       = Some (JFloat (fl_round2 (fl_mul (fl_sub t1 t0) (inject_Z 1000))))
    /\ Json.obj_get "available_models" test_result = None.
Proof.
  intros Hu Hk Hup Hcode.
  rewrite (get_config_info_dict_sent c config_info t0 t1 w u k Hu Hk), Hup. simpl.
  apply Z.eqb_neq in Hcode. rewrite Hcode.
  destruct (take_spec body 100) as (rest & Hs & Hn & Hr).
  eexists _, (Str.take 100 body), rest. split; [apply obj_get_obj_set|].
  split; [reflexivity|]. split; [reflexivity|]. done.
Qed.

(** An exception of the HTTP client is reported by its kind: a timeout,
    a request error, and any other as a failed test, except that a
    [ValueError] is reported as a configuration error. The response time
    stays the integer zero and there is no model list. *)
Theorem get_config_info_client_exception (c : Config) (config_info : list (string * json))
    (t0 t1 : Q) (w : World) (u k : string) (e : exn) :
  grok_api_url c = Return u ->
  grok_api_key c = Return k ->
  upstream w (requests w) (Server.models_request u k) = Raise e ->
  exists test_result,
    Json.obj_get "connection_test" (Server.get_config_info_dict c config_info t0 t1 w).1
    = Some (JObject test_result)
    /\ Json.obj_get "status" test_result
       = Some (JString match e with
                       | TimeoutException _ => "❌ Connection timeout"
                       | RequestError _ => "❌ Connection failed"
                       | ValueError _ => "❌ Configuration error"
                       | _ => "❌ Test failed"
                       end)
    /\ Json.obj_get "message" test_result
       = Some (JString match e with
                       | TimeoutException _ =>
                           "Request timeout (10 seconds), please check network connection or API URL"
                       | RequestError msg => "Network error: " +:+ msg
                       | ValueError msg => msg
                       | _ => "Unknown error: " +:+ exn_message e
                       end)
    /\ Json.obj_get "response_time_ms" test_result = Some (JInt 0)
    /\ Json.obj_get "available_models" test_result = None.
Proof.
  intros Hu Hk Hup.
  rewrite (get_config_info_dict_sent c config_info t0 t1 w u k Hu Hk), Hup.
  eexists. split; [apply obj_get_obj_set|].
  destruct e; repeat split; reflexivity.
Qed.

(** A 200 whose body does not decode, or decodes to anything but a dict
    with a list under [data], still counts as a successful connection:
    the report has the plain message and no model list. *)
Theorem get_config_info_unusable_listing (c : Config) (config_info : list (string * json))
    (t0 t1 : Q) (w : World) (u k body : string) :
  grok_api_url c = Return u ->
  grok_api_key c = Return k ->
  upstream w (requests w) (Server.models_request u k)
  = Return {| status_code := 200; text := body |} ->
  (forall members data,
     loads body = Some (JObject members) ->
     Json.obj_get "data" members <> Some (JArray data)) ->
  exists test_result,
    Json.obj_get "connection_test" (Server.get_config_info_dict c config_info t0 t1 w).1
    = Some (JObject test_result)
    /\ Json.obj_get "status" test_result = Some (JString "✅ Connection successful")
    /\ Json.obj_get "message" test_result
       = Some (JString "Successfully retrieved model list (HTTP 200)")
    /\ Json.obj_get "available_models" test_result = None.
Proof.
  intros Hu Hk Hup Hbad.
  rewrite (get_config_info_dict_sent c config_info t0 t1 w u k Hu Hk), Hup. simpl.
  eexists. split; [apply obj_get_obj_set|].
  unfold Server.add_models.
  destruct (loads body) as [[| | | | | |members]|] eqn:El; try (repeat split; reflexivity).
  specialize (Hbad members).
  destruct (Json.obj_get "data" members) as [[| | | | |data|]|];
    try (repeat split; reflexivity).
  by destruct (Hbad data eq_refl).
Qed.

(** With a list under [data], the message counts every entry of the
    list, while the model list holds the [id] of the entries that are
    dicts with an [id], in their order; it is left out when there is
    none. *)
Theorem get_config_info_counts_all_entries (c : Config)
    (config_info : list (string * json)) (t0 t1 : Q) (w : World) (u k body : string)
    (members : list (string * json)) (data : list json) :
  grok_api_url c = Return u ->
  grok_api_key c = Return k ->
  upstream w (requests w) (Server.models_request u k)
  = Return {| status_code := 200; text := body |} ->
  loads body = Some (JObject members) ->
  Json.obj_get "data" members = Some (JArray data) ->
  exists test_result,
    Json.obj_get "connection_test" (Server.get_config_info_dict c config_info t0 t1 w).1
    = Some (JObject test_result)
    /\ Json.obj_get "message" test_result
       = Some (JString ("Successfully retrieved model list (HTTP 200), total "
                        +:+ Str.of_nat (length data) +:+ " models"))
    /\ Json.obj_get "available_models" test_result
       = match omap (Json.field "id") data with
         | [] => None
         | id :: ids => Some (JArray (id :: ids))
         end
    /\ (length (omap (Json.field "id") data) <= length data)%nat
    /\ (forall id, id ∈ omap (Json.field "id") data
                   <-> exists entry, entry ∈ data /\ Json.field "id" entry = Some id).
Proof.
  intros Hu Hk Hup Hl Hd.
  rewrite (get_config_info_dict_sent c config_info t0 t1 w u k Hu Hk), Hup. simpl.
  unfold Server.add_models. rewrite Hl, Hd. unfold Server.model_ids.
  eexists. split; [apply obj_get_obj_set|].
  split; [|split; [|split]].
  - by destruct (omap (Json.field "id") data).
  - by destruct (omap (Json.field "id") data).
  - clear. induction data as [|entry data IH]; [simpl; lia|].
    change (omap (Json.field "id") (entry :: data))
      with (match Json.field "id" entry with
            | Some id => id :: omap (Json.field "id") data
            | None => omap (Json.field "id") data
            end).
    destruct (Json.field "id" entry); simpl; lia.
  - intros id. apply list_elem_of_omap.
Qed.

(** A model list in the report comes from a 200 whose body decoded to a
    dict with a list under [data] that has at least one [id]. *)
Theorem available_models_only_from_listing (c : Config)
    (config_info : list (string * json)) (t0 t1 : Q) (w : World)
    (test_result : list (string * json)) (v : json) :
  Json.obj_get "connection_test" (Server.get_config_info_dict c config_info t0 t1 w).1
  = Some (JObject test_result) ->
  Json.obj_get "available_models" test_result = Some v ->
  exists u k body members data,
    grok_api_url c = Return u /\ grok_api_key c = Return k
    /\ upstream w (requests w) (Server.models_request u k)
       = Return {| status_code := 200; text := body |}
    /\ loads body = Some (JObject members)
    /\ Json.obj_get "data" members = Some (JArray data)
    /\ v = JArray (Server.model_ids data)
    /\ Server.model_ids data <> [].
Proof.
  intros Hct Hv.
  assert (Hexn : forall e,
            Json.obj_get "available_models"
              (Server.on_test_exception e Server.initial_test_result) = None)
    by (intros e; by destruct e).
  destruct (grok_api_url c) as [u|e] eqn:Hu.
  2: { unfold Server.get_config_info_dict, Server.connection_test in Hct.
       rewrite Hu in Hct. simpl in Hct. rewrite obj_get_obj_set in Hct.
       injection Hct as <-. by rewrite Hexn in Hv. }
  destruct (grok_api_key c) as [k|e] eqn:Hk.
  2: { unfold Server.get_config_info_dict, Server.connection_test in Hct.
       rewrite Hu, Hk in Hct. simpl in Hct. rewrite obj_get_obj_set in Hct.
       injection Hct as <-. by rewrite Hexn in Hv. }
  rewrite (get_config_info_dict_sent c config_info t0 t1 w u k Hu Hk) in Hct.
  rewrite obj_get_obj_set in Hct. injection Hct as <-.
  destruct (upstream w (requests w) (Server.models_request u k)) as [[code body]|e]
    eqn:Hup; [|by rewrite Hexn in Hv].
  simpl in Hv. destruct (Z.eqb_spec code 200) as [->|Hne]; [|discriminate Hv].
  unfold Server.add_models in Hv.
  destruct (loads body) as [[| | | | | |members]|] eqn:Hl; try discriminate Hv.
  destruct (Json.obj_get "data" members) as [[| | | | |data|]|] eqn:Hd;
    try discriminate Hv.
  exists u, k, body, members, data.
  destruct (Server.model_ids data) as [|id ids] eqn:Hids; [discriminate Hv|].
  rewrite obj_get_obj_set in Hv. injection Hv as <-.
  repeat split; done.
Qed.

End ConnectionFacts.

(** ** What a configuration error tells the context *)

Section ContextFacts.
Import ConfigResolver.

(** When an accessor raises the [ValueError] of a missing setting and
    the call has a context, [web_search] and [web_fetch], whatever their
    provider, pass the message to [ctx.report_progress] once, and what
    that call does decides the outcome: the tool returns "Configuration
    error: " and the message when it returns, and raises what it raises.
    Without a context the tool returns the string. Either way nothing
    goes to the log file and no request is sent. *)
Theorem config_error_reported_to_context (search : SearchFn) (fetch : FetchFn)
    (c : Config) (m : ModelStore) (query platform u : string)
    (min_results max_results : Z) (ctx : bool) (w : World) (msg : string) :
  (grok_api_url c = Raise (ValueError msg)
   \/ exists a, grok_api_url c = Return a /\ grok_api_key c = Raise (ValueError msg)) ->
  (Server.web_search_with search c m query platform min_results max_results ctx w).1
  = (if ctx then
       match progress_reply w msg with
       | Return _ => Return ("Configuration error: " +:+ msg)
       | Raise e => Raise e
       end
     else Return ("Configuration error: " +:+ msg))
  /\ (Server.web_fetch_with fetch c m u ctx w).1
     = (Server.web_search_with search c m query platform min_results max_results ctx w).1
  /\ (Server.web_fetch_with fetch c m u ctx w).2
     = (Server.web_search_with search c m query platform min_results max_results ctx w).2
  /\ ctx_events
       (Server.web_search_with search c m query platform min_results max_results ctx w).2
     = ctx_events w ++ (if ctx then [CtxProgress msg] else [])
  /\ log_lines
       (Server.web_search_with search c m query platform min_results max_results ctx w).2
     = log_lines w
  /\ requests
       (Server.web_search_with search c m query platform min_results max_results ctx w).2
     = requests w.
Proof.
  intros Hmiss.
  pose proof (resolve_raises c m (ValueError msg) Hmiss) as Hr.
  rewrite (web_search_with_config_error search c m query platform
             min_results max_results ctx w msg Hr).
  rewrite (web_fetch_with_config_error fetch c m u ctx w msg Hr).
  unfold Server.on_config_error, Effects.report_progress.
  destruct ctx; simpl.
  - destruct (progress_reply w msg) as [[]|e]; simpl; done.
  - by rewrite app_nil_r.
Qed.

End ContextFacts.

(** ** The result formatter, further *)

Section FormatterMore.
Import Formatter.

Lemma join_cons (sep x : string) (l : list string) :
  Str.join sep (x :: l)
  = x +:+ match l with [] => EmptyString | _ :: _ => sep +:+ Str.join sep l end.
Proof. destruct l; simpl; [by rewrite app_empty_r | reflexivity]. Qed.

Lemma join_app (sep : string) (l1 l2 : list string) :
  l1 <> [] -> l2 <> [] ->
  Str.join sep (l1 ++ l2) = Str.join sep l1 +:+ sep +:+ Str.join sep l2.
Proof.
  intros H1 H2. induction l1 as [|x l1 IH]; [done|].
  destruct l1 as [|y l1].
  - simpl. destruct l2; [done | reflexivity].
  - change ((x :: y :: l1) ++ l2) with (x :: ((y :: l1) ++ l2)).
    rewrite join_cons. change ((y :: l1) ++ l2) with (y :: (l1 ++ l2)) at 1.
    rewrite IH by done. rewrite (join_cons sep x (y :: l1)).
    by rewrite !app_assoc_string.
Qed.

Lemma format_nonempty (results : list SearchResult) :
  results <> [] ->
  format_search_results results
  = Str.join separator (imap (fun k r => described_block (1 + k) r) results).
Proof.
  destruct results; [done|]. intros _.
  unfold format_search_results. by rewrite format_loop_blocks.
Qed.

(** For a list that is not empty, the text begins with the header of the
    first result, so it is never the text of the empty list. *)
Theorem format_nonempty_starts_with_header (r : SearchResult) (rest : list SearchResult) :
  (exists tail,
     format_search_results (r :: rest) = "## Result 1: " +:+ title r +:+ tail)
  /\ format_search_results (r :: rest) <> "No results found."
  /\ format_search_results (r :: rest) <> EmptyString.
Proof.
  assert (Hhead : exists tail,
            format_search_results (r :: rest) = "## Result 1: " +:+ title r +:+ tail).
  { rewrite (format_nonempty (r :: rest)) by done.
    rewrite imap_cons, join_cons.
    unfold described_block at 1. rewrite join_cons. unfold block_header.
    change (Str.of_nat 1) with "1".
    eexists. rewrite !app_assoc_string. reflexivity. }
  split; [exact Hhead|]. destruct Hhead as [tail ->].
  change ("## Result 1: " +:+ title r +:+ tail)
    with (String "#" ("# Result 1: " +:+ title r +:+ tail)).
  split; discriminate.
Qed.

(** Results are formatted one by one: the text of a list followed by
    more results is the text of the list, a separator, and the blocks of
    the further results numbered on from where the list ended. *)
Theorem format_search_results_appends (x : SearchResult) (xs : list SearchResult)
    (y : SearchResult) (ys : list SearchResult) :
  format_search_results ((x :: xs) ++ y :: ys)
  = format_search_results (x :: xs) +:+ separator
    +:+ Str.join separator (format_loop (S (length (x :: xs))) (y :: ys) []).
Proof.
  rewrite (format_nonempty ((x :: xs) ++ y :: ys)) by done.
  rewrite (format_nonempty (x :: xs)) by done.
  rewrite format_loop_blocks, app_nil_l, imap_app.
  rewrite join_app; [| by rewrite imap_cons | by rewrite imap_cons].
  reflexivity.
Qed.

End FormatterMore.

(** * The further properties at concrete inputs *)

Section MoreWitnesses.
Import Toggle.




(** A project without a settings file: "on" creates it, and a second
    "on" leaves it as it is. *)
Lemma toggle_on_then_again_witness :
  @toggle_dict RefCodec.codec "on"
    (@written RefCodec.codec Sample.project_file
       (with_deny [("permissions", JObject [("deny", JArray [])])]
          [("deny", JArray [])] (deny_on []))
       (Sample.project_with None))
  = Some (Return (report true [JString "WebFetch"; JString "WebSearch"]
                    Sample.project_file "Built-in tools disabled"),
          @written RefCodec.codec Sample.project_file
            (with_deny [("permissions", JObject [("deny", JArray [])])]
               [("deny", JArray [])] (deny_on []))
            (Sample.project_with None)).
Proof.
  refine (proj1 (proj2 (proj2 (@toggle_on_then_again RefCodec.codec Sample.project_file
            (Sample.project_with None) initial_settings
            [("permissions", JObject [("deny", JArray [])])]
            [("deny", JArray [])] [] _ _ _ _ _ _)))).
  - vm_compute. reflexivity.
  - vm_compute. reflexivity.
  - reflexivity.
  - reflexivity.
  - reflexivity.
  - vm_compute. reflexivity.
Defined.

(** A settings file that is no JSON, and a disk that fills up while the
    settings are written: the file is left with the opening brace. *)
Lemma toggle_raises_on_bad_settings_witness :
  @toggle_builtin_tools RefCodec.codec "status" Sample.broken_project
  = Some (Raise (ValueError (@decode_error RefCodec.codec "{ permissions: ")),
          Sample.broken_project)
  /\ @toggle_builtin_tools RefCodec.codec "on" Sample.full_disk_project
     = Some (Raise (OSError "No space left on device"),
             holding Sample.project_file "{" Sample.full_disk_project).
Proof.
  split.
  - refine (proj1 (@toggle_raises_on_bad_settings RefCodec.codec "status"
                     Sample.project_file Sample.broken_project _)
              "{ permissions: " _ _).
    + vm_compute. reflexivity.
    + vm_compute. reflexivity.
    + vm_compute. reflexivity.
  - refine (proj1 (proj2 (proj2 (proj2 (proj2
              (@toggle_raises_on_bad_settings RefCodec.codec "on"
                 Sample.project_file Sample.full_disk_project _)))
              Sample.project_settings
              [("model", JString "opus");
               ("permissions", JObject [("allow", JArray [JString "Bash"]);
                                        ("deny", JArray [JString "Read(.env)"])])]
              [("allow", JArray [JString "Bash"]);
               ("deny", JArray [JString "Read(.env)"])]
              [JString "Read(.env)"] _ _ _
              (OSError "No space left on device")) "{" _)).
    + vm_compute. reflexivity.
    + vm_compute. reflexivity.
    + reflexivity.
    + discriminate.
    + reflexivity.
Defined.

Lemma startup_level_absent_or_empty_witness :
  @startup Sample.logging (Sample.disk (Some (Document (_config_data Sample.complete))))
  = Return Sample.complete.
Proof.
  refine (proj2 (proj1 (@startup_level_absent_or_empty Sample.logging
            (Sample.disk (Some (Document (_config_data Sample.complete))))
            (_config_data Sample.complete) eq_refl eq_refl eq_refl) _)).
  vm_compute. reflexivity.
Defined.

Lemma get_config_info_abnormal_status_witness :
  exists test_result,
    Json.obj_get "connection_test"
      (@Server.get_config_info_dict RefCodec.codec Server.exact Sample.complete [] 0 (1 # 4)
         Sample.busy_world).1
    = Some (JObject test_result)
    /\ Json.obj_get "message" test_result
       = Some (JString "HTTP 503: upstream overloaded").
Proof.
  destruct (@get_config_info_abnormal_status RefCodec.codec Server.exact Sample.complete [] 0 (1 # 4)
              Sample.busy_world "https://api.example.test/v1/" "sk-test"
              "upstream overloaded" 503)
    as (tr & shown & rest & Hct & _ & Hmsg & Hbody & Hn & _).
  - vm_compute. reflexivity.
  - vm_compute. reflexivity.
  - reflexivity.
  - discriminate.
  - exists tr. split; [exact Hct|]. rewrite Hmsg. do 2 f_equal.
    assert (Hshown : shown = Str.take 100 "upstream overloaded").
    { revert Hct. vm_compute. intros [= <-]. revert Hmsg. vm_compute.
      by intros [= <-]. }
    rewrite Hshown. reflexivity.
Defined.

Lemma get_config_info_client_exception_witness :
  exists test_result,
    Json.obj_get "connection_test"
      (@Server.get_config_info_dict RefCodec.codec Server.exact Sample.complete [] 0 (1 # 4)
         (Sample.failing_world (TimeoutException "timed out"))).1
    = Some (JObject test_result)
    /\ Json.obj_get "status" test_result = Some (JString "❌ Connection timeout")
    /\ Json.obj_get "response_time_ms" test_result = Some (JInt 0).
Proof.
  destruct (@get_config_info_client_exception RefCodec.codec Server.exact Sample.complete [] 0 (1 # 4)
              (Sample.failing_world (TimeoutException "timed out"))
              "https://api.example.test/v1/" "sk-test" (TimeoutException "timed out"))
    as (tr & Hct & Hst & _ & Hms & _).
  - vm_compute. reflexivity.
  - vm_compute. reflexivity.
  - reflexivity.
  - exists tr. split; [exact Hct|]. split; [exact Hst | exact Hms].
Defined.

Lemma get_config_info_unusable_listing_witness :
  exists test_result,
    Json.obj_get "connection_test"
      (@Server.get_config_info_dict RefCodec.codec Server.exact Sample.complete [] 0 (1 # 4)
         (Sample.world (Sample.ok "<html>"))).1
    = Some (JObject test_result)
    /\ Json.obj_get "status" test_result = Some (JString "✅ Connection successful")
    /\ Json.obj_get "available_models" test_result = None.
Proof.
  destruct (@get_config_info_unusable_listing RefCodec.codec Server.exact Sample.complete [] 0 (1 # 4)
              (Sample.world (Sample.ok "<html>"))
              "https://api.example.test/v1/" "sk-test" "<html>")
    as (tr & Hct & Hst & _ & Hno).
  - vm_compute. reflexivity.
  - vm_compute. reflexivity.
  - reflexivity.
  - intros members data Hl. vm_compute in Hl. discriminate Hl.
  - exists tr. split; [exact Hct|]. split; [exact Hst | exact Hno].
Defined.

Lemma get_config_info_counts_all_entries_witness :
  exists test_result,
    Json.obj_get "connection_test"
      (@Server.get_config_info_dict RefCodec.codec Server.exact Sample.complete [] 0 (1 # 4)
         Sample.ragged_world).1
    = Some (JObject test_result)
    /\ Json.obj_get "message" test_result
       = Some (JString "Successfully retrieved model list (HTTP 200), total 3 models")
    /\ Json.obj_get "available_models" test_result
       = Some (JArray [JString "grok-4-fast"]).
Proof.
  destruct (@get_config_info_counts_all_entries RefCodec.codec Server.exact Sample.complete [] 0 (1 # 4)
              Sample.ragged_world "https://api.example.test/v1/" "sk-test"
              (Sample.models_body [Sample.model_entry "grok-4-fast"; JString "grok-3";
                                   JObject [("object", JString "model")]])
              [("object", JString "list");
               ("data", JArray [Sample.model_entry "grok-4-fast"; JString "grok-3";
                                JObject [("object", JString "model")]])]
              [Sample.model_entry "grok-4-fast"; JString "grok-3";
               JObject [("object", JString "model")]])
    as (tr & Hct & Hmsg & Hmodels & _).
  - vm_compute. reflexivity.
  - vm_compute. reflexivity.
  - reflexivity.
  - vm_compute. reflexivity.
  - reflexivity.
  - exists tr. split; [exact Hct|]. split; [exact Hmsg | exact Hmodels].
Defined.

Lemma available_models_only_from_listing_witness :
  exists data,
    Server.model_ids data = [JString "grok-4-fast"; JString "grok-3"]
    /\ Server.model_ids data <> [].
Proof.
  edestruct (@available_models_only_from_listing RefCodec.codec Server.exact Sample.complete [] 0
               (1 # 4) Sample.listing_world)
    as (u & k & body & members & data & _ & _ & _ & _ & _ & Hv & Hne).
  - vm_compute. reflexivity.
  - reflexivity.
  - exists data. split; [|exact Hne]. by injection Hv as <-.
Defined.

Lemma get_config_info_missing_setting_witness :
  exists test_result,
    Json.obj_get "connection_test"
      (@Server.get_config_info_dict RefCodec.codec Server.exact Sample.no_url [] 0 (1 # 4)
         Sample.listing_world).1
    = Some (JObject test_result)
    /\ Json.obj_get "status" test_result = Some (JString "❌ Configuration error")
    /\ Json.obj_get "message" test_result = Some (JString "grok.api_url not configured").
Proof.
  destruct (@get_config_info_missing_setting RefCodec.codec Server.exact Sample.no_url []
              0 (1 # 4) Sample.listing_world
       "grok.api_url not configured")
    as (tr & Hct & Hst & Hmsg & _).
  - left. vm_compute. reflexivity.
  - exists tr. split; [exact Hct|]. split; [exact Hst | exact Hmsg].
Defined.

(** A search without [grok.api_url], with a context that rejects the
    message as progress: the message has gone to the context, and the
    tool raises. *)
Lemma config_error_reported_to_context_witness :
  (@Server.web_search RefCodec.codec Sample.prompts Sample.no_url (Sample.store None)
     "rocq" EmptyString 3 10 true (Sample.strict_world (Sample.ok EmptyString))).1
  = Raise (ValueError
             "progress: input should be a valid number: grok.api_url not configured")
  /\ ctx_events
       (@Server.web_search RefCodec.codec Sample.prompts Sample.no_url (Sample.store None)
          "rocq" EmptyString 3 10 true (Sample.strict_world (Sample.ok EmptyString))).2
     = [CtxProgress "grok.api_url not configured"].
Proof.
  destruct (config_error_reported_to_context
              (@Server.provider_search RefCodec.codec Sample.prompts)
              (@Server.provider_fetch RefCodec.codec Sample.prompts)
              Sample.no_url (Sample.store None) "rocq" EmptyString
              "https://example.test/" 3 10 true
              (Sample.strict_world (Sample.ok EmptyString))
              "grok.api_url not configured")
    as (Hret & _ & _ & Hev & _).
  - left. vm_compute. reflexivity.
  - split; [exact Hret | exact Hev].
Defined.

End MoreWitnesses.
